(** * FEMA National Risk Index: schema and TMCF generation

    A shallow embedding of
    [scripts/us_fema/national_risk_index/generate_schema_and_tmcf.py]:
    the row classifier, the property extractors, the identifier and
    display-name synthesis, the two formatters, the de-duplication of
    the output sequences and the loop that drives them.

    Python [str] values are modelled as [string]; the data dictionary is
    7-bit ASCII text, and the character predicates below follow Python
    on code points 0..127 (the remaining codes are neither upper case,
    lower case nor blank).  A Python exception is a [Raise] in the
    [result] monad.  The [properties] dictionaries are records whose
    optional keys are [option] fields: reading an absent key is a
    [KeyError]. *)

From Stdlib Require Import String Ascii List Bool Arith DecimalString.
Import ListNotations.
Open Scope list_scope.
Open Scope string_scope.

(** ** Exceptions *)

Inductive exn : Type :=
| IndexError
| KeyError.

Inductive result (A : Type) : Type :=
| Ok (a : A)
| Raise (e : exn).

Arguments Ok {A} a.
Arguments Raise {A} e.

Definition bind {A B : Type} (m : result A) (k : A -> result B) : result B :=
  match m with
  | Ok a => k a
  | Raise e => Raise e
  end.

Notation "x <- m ;; k" := (bind m (fun x => k))
  (at level 61, m at next level, right associativity).
Notation "' p <- m ;; k" := (bind m (fun p => k))
  (at level 61, p pattern, m at next level, right associativity).

(** ** Python string and list primitives *)

Module PyStr.

Definition code (c : ascii) : nat := nat_of_ascii c.

(** [c.isupper()], [c.upper()] and [c.isspace()] for one character.
    [upper_char] is [str.upper] on an ASCII character; outside ASCII
    Python can give another number of characters. *)
Definition isupper (c : ascii) : bool :=
  ((65 <=? code c) && (code c <=? 90))%nat.

Definition upper_char (c : ascii) : ascii :=
  if ((97 <=? code c) && (code c <=? 122))%nat
  then ascii_of_nat (code c - 32) else c.

Definition isspace (c : ascii) : bool :=
  (((9 <=? code c) && (code c <=? 13))
   || ((28 <=? code c) && (code c <=? 32)))%nat.

(** [s.lstrip()], [s.rstrip()], [s.strip()]. *)
Fixpoint lstrip (s : string) : string :=
  match s with
  | EmptyString => EmptyString
  | String c s' => if isspace c then lstrip s' else s
  end.

Fixpoint rstrip (s : string) : string :=
  match s with
  | EmptyString => EmptyString
  | String c s' =>
      match rstrip s' with
      | EmptyString => if isspace c then EmptyString else String c EmptyString
      | r => String c r
      end
  end.

Definition strip (s : string) : string := rstrip (lstrip s).

(** [s.replace(c, "")] for a one-character [c]. *)
Fixpoint delete_all (c : ascii) (s : string) : string :=
  match s with
  | EmptyString => EmptyString
  | String d s' =>
      if Ascii.eqb d c then delete_all c s' else String d (delete_all c s')
  end.

(** [sub in s]. *)
Fixpoint contains (sub s : string) : bool :=
  prefix sub s
  || match s with
     | EmptyString => false
     | String _ s' => contains sub s'
     end.

(** [s.count(c)] for a one-character [c]. *)
Fixpoint count_char (c : ascii) (s : string) : nat :=
  match s with
  | EmptyString => 0
  | String d s' => (if Ascii.eqb d c then 1 else 0) + count_char c s'
  end.

(** [s.split(sep)] for a non-empty [sep]: the leftmost occurrence of
    [sep] closes the current piece, and scanning resumes behind it.
    [skip] counts the characters of a matched separator still to be
    passed over; [cur] is the piece read so far. *)
Fixpoint split_go (sep : string) (skip : nat) (cur : string) (s : string)
  : list string :=
  match s with
  | EmptyString => [cur]
  | String c s' =>
      match skip with
      | S k => split_go sep k cur s'
      | O =>
          if prefix sep s
          then cur :: split_go sep (String.length sep - 1) EmptyString s'
          else split_go sep 0 (cur ++ String c EmptyString) s'
      end
  end.

Definition split (sep s : string) : list string :=
  split_go sep 0 EmptyString s.

(** [sep.join(l)]. *)
Fixpoint join (sep : string) (l : list string) : string :=
  match l with
  | [] => EmptyString
  | x :: l' =>
      match l' with
      | [] => x
      | _ :: _ => x ++ sep ++ join sep l'
      end
  end.

(** [l[i]] and [l[-1]]. *)
Definition index {A : Type} (l : list A) (i : nat) : result A :=
  match nth_error l i with
  | Some a => Ok a
  | None => Raise IndexError
  end.

Definition last_item {A : Type} (l : list A) : result A :=
  match rev l with
  | a :: _ => Ok a
  | [] => Raise IndexError
  end.

(** [s[:-n]]: Python reads [-0] as [0], so [s[:-0]] is empty. *)
Definition drop_tail (s : string) (n : nat) : string :=
  match n with
  | O => EmptyString
  | S _ => substring 0 (String.length s - n) s
  end.

(** [str(n)] for a non-negative integer. *)
Definition of_nat (n : nat) : string :=
  NilEmpty.string_of_uint (Nat.to_uint n).

(** [x in l] for a list of strings. *)
Definition mem (x : string) (l : list string) : bool :=
  existsb (String.eqb x) l.

(** Lookup in a dictionary literal with string keys. *)
Fixpoint lookup (key : string) (d : list (string * string)) : option string :=
  match d with
  | [] => None
  | (k, v) :: d' => if String.eqb key k then Some v else lookup key d'
  end.

Definition nl : string := String "010"%char EmptyString.
Definition dquote : string := String "034"%char EmptyString.

End PyStr.
Import PyStr.

(** ** The data dictionary and the module constants *)

(** One row of the data dictionary, as the loop sees it: the columns the
    program reads, with ["Version ISO8601"] already derived by pandas.
    Every cell is a string: a table with an empty or [NA] cell, which
    pandas reads as a float [NaN], is outside this model. *)
Record Row : Type := {
  Field_Name : string;
  Field_Alias : string;
  Relevant_Layer : string;
  Version_ISO8601 : string
}.

(** The [properties] dictionary.  The composite extractor sets only
    [measured_property] and [unit]; [is_composite] and [row] are added by
    [extract_properties_from_row]. *)
Record Properties : Type := {
  hazard_type : option string;
  measured_property : string;
  measurement_qualifier : option string;
  impacted_thing : option string;
  unit : string;
  is_composite : option bool;
  row : option Row
}.

Definition get {A : Type} (field : option A) : result A :=
  match field with
  | Some a => Ok a
  | None => Raise KeyError
  end.

Definition IGNORED_FIELDS : list string :=
  [ "OBJECTID"; "Shape"; "Shape_Length"; "Shape_Area"; "STATE"; "STATEABBRV";
    "STATEFIPS"; "COUNTY"; "COUNTYTYPE"; "COUNTYFIPS"; "STCOFIPS"; "NRI_ID";
    "TRACT"; "TRACTFIPS"; "POPULATION"; "BUILDVALUE"; "AGRIVALUE"; "AREA";
    "NRI_VER"; "AIANNHCE"; "FEDREG2020"; "FEDERAL_ID"; "JURS_NAME"; "JURS_AREA";
    "JURS_TYPE"; "HIFLD_NAME"; "HIFLD_AREA"; "HIFLD_TYPE" ].

(** The four feature flags, [True] in the source. *)
Record Flags : Type := {
  FLAG_SKIP_EAL_COMPONENTS : bool;
  FLAG_SKIP_IMPACTED_THING_COMPONENTS : bool;
  FLAG_SKIP_NON_SCORE_RELATIVE_MEASURES : bool;
  FLAG_SKIP_RAW_VALUES : bool
}.

Definition source_flags : Flags :=
  {| FLAG_SKIP_EAL_COMPONENTS := true;
     FLAG_SKIP_IMPACTED_THING_COMPONENTS := true;
     FLAG_SKIP_NON_SCORE_RELATIVE_MEASURES := true;
     FLAG_SKIP_RAW_VALUES := true |}.

Definition COMPOSITE_ROW_LAYERS : list string :=
  [ "National Risk Index"; "Expected Annual Loss"; "Social Vulnerability";
    "Community Resilience" ].

Definition EAL_COMPONENTS : list string :=
  [ "Number of Events"; "Annualized Frequency"; "Historic Loss Ratio";
    "Exposure" ].

Definition IMPACTED_THING_COMPONENTS : list string :=
  [ "Building"; "Population"; "Agriculture" ].

Definition RAW_VALUE_COMPONENTS : list string :=
  [ "Social Vulnerability - Value"; "Community Resilience - Value" ].

Definition NON_SCORE_RELATIVE_MEASURES : list string :=
  [ "Rating"; "Percentile" ].

Definition COMPOSITE_MCF_FORMAT (node_dcid m_prop statvar_name : string)
  : string :=
  "Node: dcid:" ++ node_dcid ++ nl
  ++ "typeOf: dcs:StatisticalVariable" ++ nl
  ++ "statType: dcs:measuredValue" ++ nl
  ++ "populationType: dcs:NaturalHazardImpact" ++ nl
  ++ "measuredProperty: dcs:" ++ m_prop ++ nl
  ++ "name: " ++ dquote ++ statvar_name ++ dquote ++ nl.

Definition HAZARD_MCF_FORMAT_BASE
  (node_dcid haz_type m_prop statvar_name : string) : string :=
  "Node: dcid:" ++ node_dcid ++ nl
  ++ "typeOf: dcs:StatisticalVariable" ++ nl
  ++ "populationType: dcs:NaturalHazardImpact" ++ nl
  ++ "statType: dcs:measuredValue" ++ nl
  ++ "naturalHazardType: dcs:" ++ haz_type ++ nl
  ++ "measuredProperty: dcs:" ++ m_prop ++ nl
  ++ "name: " ++ dquote ++ statvar_name ++ dquote ++ nl.

Definition TMCF_FORMAT (index : nat) (statvar_dcid obs_date field_name : string)
  : string :=
  nl ++ "Node: E:FEMA_NRI->E" ++ of_nat index ++ nl
  ++ "typeOf: dcs:StatVarObservation" ++ nl
  ++ "variableMeasured: dcs:" ++ statvar_dcid ++ nl
  ++ "observationAbout: C:FEMA_NRI_Counties->DCID_GeoID" ++ nl
  ++ "observationDate: " ++ dquote ++ obs_date ++ dquote ++ nl
  ++ "value: C:FEMA_NRI_Counties->" ++ field_name ++ nl.

Definition SCHEMA_OUTPUT_PREFIX : string :=
  nl ++ "# This file was autogenerated. Please see:" ++ nl
  ++ "# https://github.com/datacommonsorg/data/tree/master/scripts/fema/nri/README.md"
  ++ nl ++ nl.

Definition DATACOMMONS_ALIASES : list (string * string) :=
  [ ("Score", "FemaNationalRiskScore");
    ("SocialVulnerability", "femaSocialVulnerability");
    ("CommunityResilience", "femaCommunityResilience");
    ("HazardTypeRiskIndex", "femaNaturalHazardRiskIndex");
    ("NationalRiskIndex", "femaNaturalHazardRiskIndex");
    ("ExpectedAnnualLoss", "expectedLoss") ].

(** ** The functions of the program *)

Section PruneListDupes.

Context {A : Type} (eqb : A -> A -> bool).

(** One turn of the loop: [if el not in k: k.append(el)]. *)
Definition prune_step (k : list A) (el : A) : list A :=
  if existsb (eqb el) k then k else (k ++ [el])%list.

Definition prune_list_dupes (l : list A) : list A :=
  fold_left prune_step l [].

End PruneListDupes.

Definition capitalize_first (s : string) : result string :=
  match s with
  | EmptyString => Raise IndexError
  | String c s' => Ok (String (upper_char c) s')
  end.

Definition drop_spaces (s : string) : string := delete_all " " s.

Definition apply_datacommon_alias (s : string) : string :=
  let key := delete_all " " (strip s) in
  match lookup key DATACOMMONS_ALIASES with
  | Some alias => alias
  | None => s
  end.

Definition get_nth_dash_from_field_alias (r : Row) (i : nat) : result string :=
  index (split " - " (Field_Alias r)) i.

Definition tmcf_from_row (r : Row) (index : nat) (statvar_dcid unit : string)
  : string :=
  let tmcf := TMCF_FORMAT index statvar_dcid (Version_ISO8601 r) (Field_Name r) in
  match unit with
  | EmptyString => tmcf
  | _ => tmcf ++ "unit: " ++ unit ++ nl
  end.

Definition is_composite_row (r : Row) : bool :=
  mem (Relevant_Layer r) COMPOSITE_ROW_LAYERS.

Definition normalize_unit_for_measured_property (measured_property unit : string)
  : string * string :=
  if negb (String.eqb unit "FemaNationalRiskScore")
  then if String.eqb measured_property "expectedLoss"
       then (measured_property, "dcid:USDollar")
       else (measured_property, "")
  else (measured_property, unit).

Definition extract_properties_from_composite_row (r : Row) : result Properties :=
  seg0 <- get_nth_dash_from_field_alias r 0 ;;
  let measured_property := apply_datacommon_alias (drop_spaces seg0) in
  seg1 <- get_nth_dash_from_field_alias r 1 ;;
  let unit := apply_datacommon_alias (drop_spaces seg1) in
  let '(measured_property, unit) :=
    normalize_unit_for_measured_property measured_property unit in
  Ok {| hazard_type := None;
        measured_property := measured_property;
        measurement_qualifier := None;
        impacted_thing := None;
        unit := unit;
        is_composite := None;
        row := None |}.

Definition add_spaces_before_capital_letters (text : string) : string :=
  strip
    (join ""
       (map (fun char : ascii =>
               if isupper char then String " " (String char EmptyString)
               else strip (String char EmptyString))
          (list_ascii_of_string text))).

Definition format_human_readable_name_from_properties
  (properties : Properties) (is_composite : bool) : result string :=
  let measured_property := measured_property properties in
  let statvar_name :=
    if String.eqb measured_property "expectedLoss"
    then "Annual Expected Loss from Natural Hazard Impact"
    else if String.eqb measured_property "femaNaturalHazardRiskIndex"
    then "FEMA National Risk Index for Natural Hazard Impact"
    else
      let m_prop_with_spaces :=
        add_spaces_before_capital_letters measured_property in
      let m_prop_without_fema :=
        join " " (tl (split " " m_prop_with_spaces)) in
      "FEMA " ++ m_prop_without_fema ++ " to Natural Hazard Impact" in
  if negb is_composite
  then
    hazard_type <- get (hazard_type properties) ;;
    let hazard_type_with_spaces :=
      add_spaces_before_capital_letters hazard_type in
    let hazard_type_no_event :=
      join " " (removelast (split " " hazard_type_with_spaces)) in
    Ok (statvar_name ++ ": " ++ hazard_type_no_event)
  else Ok statvar_name.

Definition format_composite_field_properties_to_schema (properties : Properties)
  : result (string * string) :=
  let measured_property := measured_property properties in
  capitalized <- capitalize_first measured_property ;;
  let dcid :=
    if String.eqb measured_property "expectedLoss"
    then "Annual_" ++ capitalized ++ "_NaturalHazardImpact"
    else capitalized ++ "_NaturalHazardImpact" in
  statvar_name <- format_human_readable_name_from_properties properties true ;;
  let formatted := COMPOSITE_MCF_FORMAT dcid measured_property statvar_name in
  let formatted :=
    if String.eqb measured_property "expectedLoss"
    then formatted ++ "measurementQualifier: dcid:Annual" ++ nl
    else formatted in
  Ok (formatted, dcid).

Definition extract_properties_from_ind_hazard_row (r : Row) : result Properties :=
  seg0 <- get_nth_dash_from_field_alias r 0 ;;
  let hazard_type := drop_spaces seg0 ++ "Event" in
  let hazard_type :=
    if String.eqb hazard_type "CoastalFloodingEvent"
    then "CoastalFloodEvent" else hazard_type in
  seg1 <- get_nth_dash_from_field_alias r 1 ;;
  let measured_property := apply_datacommon_alias seg1 in
  let unit := "" in
  '(measured_property, unit) <-
    (if contains "Score" measured_property || contains "Rating" measured_property
     then
       unit <- last_item (split " " measured_property) ;;
       let measured_property :=
         apply_datacommon_alias
           (drop_tail measured_property (String.length unit)) in
       let unit := apply_datacommon_alias unit in
       Ok (measured_property, unit)
     else Ok (measured_property, unit)) ;;
  let '(measured_property, unit) :=
    normalize_unit_for_measured_property measured_property unit in
  let measurement_qualifier :=
    if String.eqb measured_property "expectedLoss" then "Annual" else "" in
  let measured_property := drop_spaces measured_property in
  let impacted_thing := "" in
  impacted_thing <-
    (if (1 <? count_char "-" (Field_Alias r))%nat
     then
       seg2 <- get_nth_dash_from_field_alias r 2 ;;
       let impacted_thing := drop_spaces seg2 in
       Ok (if String.eqb impacted_thing "Total" then "" else impacted_thing)
     else Ok impacted_thing) ;;
  let impacted_thing :=
    if contains "Population" impacted_thing then "Person" else impacted_thing in
  Ok {| hazard_type := Some hazard_type;
        measured_property := measured_property;
        measurement_qualifier := Some measurement_qualifier;
        impacted_thing := Some impacted_thing;
        unit := unit;
        is_composite := None;
        row := None |}.

(** The list comprehension [[element for element in dcid_list if element]]. *)
Definition nonempty (s : string) : bool :=
  match s with
  | EmptyString => false
  | String _ _ => true
  end.

(** [[capitalize_first(element) for element in dcid_list]]: the first
    element that raises ends the comprehension. *)
Fixpoint capitalize_all (l : list string) : result (list string) :=
  match l with
  | [] => Ok []
  | x :: l' =>
      y <- capitalize_first x ;;
      ys <- capitalize_all l' ;;
      Ok (y :: ys)
  end.

Definition format_ind_hazard_field_properties_to_schema (properties : Properties)
  : result (string * string) :=
  hazard_type <- get (hazard_type properties) ;;
  let measured_property := measured_property properties in
  measurement_qualifier <- get (measurement_qualifier properties) ;;
  impacted_thing <- get (impacted_thing properties) ;;
  let unit := unit properties in
  let dcid_list :=
    [ measurement_qualifier; measured_property; "NaturalHazardImpact";
      hazard_type; impacted_thing ] in
  let dcid_list := filter nonempty dcid_list in
  dcid_list <- capitalize_all dcid_list ;;
  let dcid := join "_" dcid_list in
  statvar_name <- format_human_readable_name_from_properties properties false ;;
  let formatted :=
    HAZARD_MCF_FORMAT_BASE dcid hazard_type (drop_spaces measured_property)
      statvar_name in
  let formatted :=
    if nonempty impacted_thing
    then formatted ++ "impactedThing: dcid:" ++ impacted_thing ++ nl
    else formatted in
  let formatted :=
    if nonempty measurement_qualifier
    then formatted ++ "measurementQualifier: dcid:" ++ measurement_qualifier ++ nl
    else formatted in
  Ok (formatted, dcid).

Definition with_row (properties : Properties) (composite : bool) (r : Row)
  : Properties :=
  {| hazard_type := hazard_type properties;
     measured_property := measured_property properties;
     measurement_qualifier := measurement_qualifier properties;
     impacted_thing := impacted_thing properties;
     unit := unit properties;
     is_composite := Some composite;
     row := Some r |}.

Definition extract_properties_from_row (r : Row) : result Properties :=
  if is_composite_row r
  then
    properties <- extract_properties_from_composite_row r ;;
    Ok (with_row properties true r)
  else
    properties <- extract_properties_from_ind_hazard_row r ;;
    Ok (with_row properties false r).

Definition schema_and_tmcf_from_properties (properties : Properties) (index : nat)
  : result (string * string) :=
  composite <- get (is_composite properties) ;;
  '(schema, statvar_dcid) <-
    (if composite : bool
     then format_composite_field_properties_to_schema properties
     else format_ind_hazard_field_properties_to_schema properties) ;;
  r <- get (row properties) ;;
  let statobs_tmcf := tmcf_from_row r index statvar_dcid (unit properties) in
  Ok (schema, statobs_tmcf).

(** *** [generate_schema_and_tmcf_from_file], between reading and writing *)

Definition field_alias_strings_to_skip (flags : Flags) : list string :=
  ((if FLAG_SKIP_EAL_COMPONENTS flags then EAL_COMPONENTS else [])
   ++ (if FLAG_SKIP_IMPACTED_THING_COMPONENTS flags
       then IMPACTED_THING_COMPONENTS else [])
   ++ (if FLAG_SKIP_NON_SCORE_RELATIVE_MEASURES flags
       then NON_SCORE_RELATIVE_MEASURES else [])
   ++ (if FLAG_SKIP_RAW_VALUES flags then RAW_VALUE_COMPONENTS else []))%list.

Definition should_skip_component (flags : Flags) (r : Row) : bool :=
  existsb (fun eal_comp => contains eal_comp (Field_Alias r))
    (field_alias_strings_to_skip flags).

(** [dd[~dd["Field Name"].isin(IGNORED_FIELDS)]]. *)
Definition drop_ignored_fields (dd : list Row) : list Row :=
  filter (fun r => negb (mem (Field_Name r) IGNORED_FIELDS)) dd.

(** The first loop: the properties of the rows that are not skipped. *)
Fixpoint extract_all (flags : Flags) (dd : list Row) : result (list Properties) :=
  match dd with
  | [] => Ok []
  | r :: dd' =>
      if should_skip_component flags r
      then extract_all flags dd'
      else
        properties <- extract_properties_from_row r ;;
        rest <- extract_all flags dd' ;;
        Ok (properties :: rest)
  end.

(** The second loop, from position [index] on: the three sequences
    [schemas], [tmcfs] and [csv_columns]. *)
Fixpoint format_all (index : nat) (extracted_properties : list Properties)
  : result (list string * list string * list string) :=
  match extracted_properties with
  | [] => Ok ([], [], [])
  | properties :: rest =>
      '(statvar_mcf, statobs_tmcf) <-
        schema_and_tmcf_from_properties properties index ;;
      r <- get (row properties) ;;
      '(schemas, tmcfs, csv_columns) <- format_all (S index) rest ;;
      Ok (statvar_mcf :: schemas, statobs_tmcf :: tmcfs,
          Field_Name r :: csv_columns)
  end.

Record Outputs : Type := {
  schemas : list string;
  tmcfs : list string;
  csv_columns : list string
}.

(** The pruned sequences, from the rows pandas read. *)
Definition generate_sequences (flags : Flags) (dd : list Row) : result Outputs :=
  let dd := drop_ignored_fields dd in
  extracted_properties <- extract_all flags dd ;;
  '(schemas, tmcfs, csv_columns) <- format_all 0 extracted_properties ;;
  Ok {| schemas := prune_list_dupes String.eqb schemas;
        tmcfs := prune_list_dupes String.eqb tmcfs;
        csv_columns := prune_list_dupes String.eqb csv_columns |}.

(** The texts handed to the writers; [csv_columns] is serialised by
    [json.dumps] afterwards. *)
Definition schema_out (o : Outputs) : string :=
  SCHEMA_OUTPUT_PREFIX ++ join nl (schemas o).

Definition tmcf_out (o : Outputs) : string := join "" (tmcfs o).

(** ** Notions the properties are stated with *)

Section FirstOccurrences.

Context {A : Type} (eqb : A -> A -> bool).

(** The elements of [l] that do not occur among [seen], the elements
    read before them: the first occurrence of each distinct element,
    in the order of [l]. *)
Fixpoint first_occurrences_from (seen l : list A) : list A :=
  match l with
  | [] => []
  | x :: l' =>
      if existsb (eqb x) seen
      then first_occurrences_from (seen ++ [x])%list l'
      else x :: first_occurrences_from (seen ++ [x])%list l'
  end.

Definition first_occurrences (l : list A) : list A :=
  first_occurrences_from [] l.

End FirstOccurrences.

(** [s.endswith(c)] for a one-character [c]. *)
Fixpoint ends_with_char (c : ascii) (s : string) : bool :=
  match s with
  | EmptyString => false
  | String d s' =>
      match s' with
      | EmptyString => Ascii.eqb d c
      | String _ _ => ends_with_char c s'
      end
  end.

(** No leading, no trailing and no doubled underscore. *)
Definition tidy_underscores (s : string) : bool :=
  negb (prefix "_" s) && negb (ends_with_char "_" s) && negb (contains "__" s).

(** A space before every capital letter of [s]. *)
Fixpoint space_capitals (s : string) : string :=
  match s with
  | EmptyString => EmptyString
  | String c s' =>
      if isupper c then String " " (String c (space_capitals s'))
      else String c (space_capitals s')
  end.

(** A space before every capital letter of [s] but a leading one. *)
Definition space_internal_capitals (s : string) : string :=
  match s with
  | EmptyString => EmptyString
  | String c s' => String c (space_capitals s')
  end.

Fixpoint delete_whitespace (s : string) : string :=
  match s with
  | EmptyString => EmptyString
  | String c s' =>
      if isspace c then delete_whitespace s' else String c (delete_whitespace s')
  end.

Definition drop_first_word (s : string) : string :=
  join " " (tl (split " " s)).

(** The display name as the specification words it: capital-letter
    spacing applied to the token as it stands. *)
Definition display_name_as_specified
  (measured_property : string) (hazard : option string) : string :=
  let base :=
    if String.eqb measured_property "expectedLoss"
    then "Annual Expected Loss from Natural Hazard Impact"
    else if String.eqb measured_property "femaNaturalHazardRiskIndex"
    then "FEMA National Risk Index for Natural Hazard Impact"
    else "FEMA " ++ drop_first_word (space_internal_capitals measured_property)
         ++ " to Natural Hazard Impact" in
  match hazard with
  | None => base
  | Some h => base ++ ": " ++ space_internal_capitals h
  end.

(** The display name the program computes: blank characters of the token
    go before the capitals are spaced. *)
Definition display_name
  (measured_property : string) (hazard : option string) : string :=
  let base :=
    if String.eqb measured_property "expectedLoss"
    then "Annual Expected Loss from Natural Hazard Impact"
    else if String.eqb measured_property "femaNaturalHazardRiskIndex"
    then "FEMA National Risk Index for Natural Hazard Impact"
    else "FEMA "
         ++ drop_first_word
              (space_internal_capitals (delete_whitespace measured_property))
         ++ " to Natural Hazard Impact" in
  match hazard with
  | None => base
  | Some h => base ++ ": " ++ space_internal_capitals (delete_whitespace h)
  end.

(** No blank character in [s]. *)
Fixpoint no_blank (s : string) : bool :=
  match s with
  | EmptyString => true
  | String c s' => negb (isspace c) && no_blank s'
  end.

(** The closed unit vocabulary. *)
Definition unit_vocabulary : list string :=
  [ "FemaNationalRiskScore"; "dcid:USDollar"; "" ].

(** ** Sample rows *)

Definition sample_row (name alias layer : string) : Row :=
  {| Field_Name := name;
     Field_Alias := alias;
     Relevant_Layer := layer;
     Version_ISO8601 := "2021-11" |}.

Definition tab : string := String "009"%char EmptyString.

(** The keys [extract_properties_from_row] leaves in a dictionary:
    [is_composite] and [row] always, and the three keys of the
    individual-hazard extractor when the row is not composite. *)
Definition keys_present (p : Properties) : Prop :=
  exists (composite : bool) (r : Row),
    is_composite p = Some composite
    /\ row p = Some r
    /\ (composite = false ->
        exists h q it,
          hazard_type p = Some h
          /\ measurement_qualifier p = Some q
          /\ impacted_thing p = Some it).

(** [c.isascii()] for one character. *)
Definition isascii (c : ascii) : bool := (code c <? 128)%nat.

(** A computation that raises nothing but [IndexError]. *)
Definition raises_only_index_error {A : Type} (m : result A) : Prop :=
  forall e, m = Raise e -> e = IndexError.

(** The rows the first loop extracts: not ignored, not skipped. *)
Definition retained (flags : Flags) (r : Row) : bool :=
  negb (mem (Field_Name r) IGNORED_FIELDS)
  && negb (should_skip_component flags r).

(** Every flag set in [f] is set in [g]. *)
Definition flags_le (f g : Flags) : Prop :=
  (FLAG_SKIP_EAL_COMPONENTS f = true -> FLAG_SKIP_EAL_COMPONENTS g = true)
  /\ (FLAG_SKIP_IMPACTED_THING_COMPONENTS f = true ->
      FLAG_SKIP_IMPACTED_THING_COMPONENTS g = true)
  /\ (FLAG_SKIP_NON_SCORE_RELATIVE_MEASURES f = true ->
      FLAG_SKIP_NON_SCORE_RELATIVE_MEASURES g = true)
  /\ (FLAG_SKIP_RAW_VALUES f = true -> FLAG_SKIP_RAW_VALUES g = true).

(** ** The earlier script, [scripts/fema/nri/generate_schema_and_tmcf.py]

    It has no display name, no capitalisation and no pruning; its alias
    table is keyed by the stripped label; the ordinal of a template is
    the position of the row in the table after the ignored fields are
    dropped.  [IGNORED_FIELDS] comes from [util.constants], which is not
    part of these sources, and is a parameter here. *)

Module Legacy.

Record Row : Type := {
  Field_Name : string;
  Field_Alias : string;
  Relevant_Layer : string;
  Version : string
}.

(** The [properties] dictionary; the composite extractor sets only
    [measured_property] and [unit]. *)
Record Properties : Type := {
  hazard_type : option string;
  measured_property : string;
  measurement_qualifier : option string;
  impacted_thing : option string;
  unit : string
}.

Record Flags : Type := {
  FLAG_SKIP_EAL_COMPONENTS : bool;
  FLAG_SKIP_IMPACTED_THING_COMPONENTS : bool;
  FLAG_SKIP_NON_SCORE_RELATIVE_MEASURES : bool
}.

Definition source_flags : Flags :=
  {| FLAG_SKIP_EAL_COMPONENTS := true;
     FLAG_SKIP_IMPACTED_THING_COMPONENTS := true;
     FLAG_SKIP_NON_SCORE_RELATIVE_MEASURES := true |}.

Definition COMPOSITE_MCF_FORMAT (node_dcid m_prop : string) : string :=
  "Node: dcid:" ++ node_dcid ++ nl
  ++ "typeOf: dcs:StatisticalVariable" ++ nl
  ++ "populationType: dcs:NaturalHazardImpact" ++ nl
  ++ "measuredProperty: dcs:" ++ m_prop ++ nl.

Definition HAZARD_MCF_FORMAT_BASE (node_dcid haz_type m_prop : string) : string :=
  "Node: dcid:" ++ node_dcid ++ nl
  ++ "typeOf: dcs:StatisticalVariable" ++ nl
  ++ "populationType: dcs:NaturalHazardImpact" ++ nl
  ++ "naturalHazardType: dcs:" ++ haz_type ++ nl
  ++ "measuredProperty: " ++ m_prop ++ nl.

Definition TMCF_FORMAT (index : nat) (statvar_dcid obs_date field_name : string)
  : string :=
  nl ++ "Node: E:FEMA_NRI->E" ++ of_nat index ++ nl
  ++ "typeOf: dcs:StatVarObservation" ++ nl
  ++ "variableMeasured: dcs:" ++ statvar_dcid ++ nl
  ++ "observationAbout: C:FEMA_NRI_Counties->DCID_GeoID" ++ nl
  ++ "observationDate: " ++ dquote ++ obs_date ++ dquote ++ nl
  ++ "value: C:FEMA_NRI_Counties->" ++ field_name ++ " " ++ nl.

Definition DATACOMMONS_ALIASES : list (string * string) :=
  [ ("Score", "FemaNationalRiskScore");
    ("SocialVulnerability", "FemaSocialVulnerability");
    ("CommunityResilience", "FemaCommunityResilience");
    ("HazardTypeRiskIndex", "FemaNaturalHazardRiskIndex");
    ("Hazard Type Risk Index", "FemaNaturalHazardRiskIndex");
    ("NationalRiskIndex", "FemaNaturalHazardRiskIndex");
    ("Expected Annual Loss", "ExpectedLoss");
    ("ExpectedAnnualLoss", "ExpectedLoss") ].

(** The argument is stripped first, and it is the stripped string that
    is returned when no alias is found. *)
Definition apply_datacommon_alias (s : string) : string :=
  let s := strip s in
  match lookup s DATACOMMONS_ALIASES with
  | Some alias => alias
  | None => s
  end.

Definition get_nth_dash_from_field_alias (r : Row) (i : nat) : result string :=
  index (split " - " (Field_Alias r)) i.

Definition tmcf_from_row (r : Row) (index : nat) (statvar_dcid unit : string)
  : string :=
  let tmcf := TMCF_FORMAT index statvar_dcid (Version r) (Field_Name r) in
  match unit with
  | EmptyString => tmcf
  | _ => tmcf ++ "unit: " ++ unit ++ nl
  end.

Definition is_composite_row (r : Row) : bool :=
  mem (Relevant_Layer r) COMPOSITE_ROW_LAYERS.

Definition normalize_unit_for_measured_property (measured_property unit : string)
  : string * string :=
  if String.eqb measured_property "ExpectedLoss"
  then if negb (String.eqb unit "FemaNationalRiskScore")
       then (measured_property, "USDollar")
       else (measured_property, unit)
  else if negb (String.eqb unit "FemaNationalRiskScore")
       then (measured_property, "")
       else (measured_property, unit).

Definition extract_properties_from_composite_row (r : Row) : result Properties :=
  seg0 <- get_nth_dash_from_field_alias r 0 ;;
  let measured_property := apply_datacommon_alias (drop_spaces seg0) in
  seg1 <- get_nth_dash_from_field_alias r 1 ;;
  let unit := apply_datacommon_alias (drop_spaces seg1) in
  let '(measured_property, unit) :=
    normalize_unit_for_measured_property measured_property unit in
  Ok {| hazard_type := None;
        measured_property := measured_property;
        measurement_qualifier := None;
        impacted_thing := None;
        unit := unit |}.

Definition format_composite_field_properties_to_schema (properties : Properties)
  : string * string :=
  let measured_property := measured_property properties in
  let dcid :=
    if String.eqb measured_property "ExpectedLoss"
    then "Annual_" ++ measured_property ++ "_NaturalHazardImpact"
    else measured_property ++ "_NaturalHazardImpact" in
  let formatted := COMPOSITE_MCF_FORMAT dcid measured_property in
  let formatted :=
    if String.eqb measured_property "ExpectedLoss"
    then formatted ++ "measurementQualifier: Annual" ++ nl
    else formatted in
  (formatted, dcid).

Definition extract_properties_from_ind_hazard_row (r : Row) : result Properties :=
  seg0 <- get_nth_dash_from_field_alias r 0 ;;
  let hazard_type := drop_spaces seg0 ++ "Event" in
  seg1 <- get_nth_dash_from_field_alias r 1 ;;
  let measured_property := apply_datacommon_alias seg1 in
  let unit := "" in
  '(measured_property, unit) <-
    (if contains "Score" measured_property || contains "Rating" measured_property
     then
       unit <- last_item (split " " measured_property) ;;
       let measured_property :=
         apply_datacommon_alias
           (drop_tail measured_property (String.length unit)) in
       let unit := apply_datacommon_alias unit in
       Ok (measured_property, unit)
     else Ok (measured_property, unit)) ;;
  let '(measured_property, unit) :=
    normalize_unit_for_measured_property measured_property unit in
  let measurement_qualifier :=
    if String.eqb measured_property "ExpectedLoss" then "Annual" else "" in
  let measured_property := drop_spaces measured_property in
  let impacted_thing := "" in
  impacted_thing <-
    (if (1 <? count_char "-" (Field_Alias r))%nat
     then
       seg2 <- get_nth_dash_from_field_alias r 2 ;;
       let impacted_thing := drop_spaces seg2 in
       Ok (if String.eqb impacted_thing "Total" then "" else impacted_thing)
     else Ok impacted_thing) ;;
  let impacted_thing :=
    if contains "Population" impacted_thing then "People" else impacted_thing in
  Ok {| hazard_type := Some hazard_type;
        measured_property := measured_property;
        measurement_qualifier := Some measurement_qualifier;
        impacted_thing := Some impacted_thing;
        unit := unit |}.

Definition format_ind_hazard_field_properties_to_schema (properties : Properties)
  : result (string * string) :=
  hazard_type <- get (hazard_type properties) ;;
  let measured_property := measured_property properties in
  measurement_qualifier <- get (measurement_qualifier properties) ;;
  impacted_thing <- get (impacted_thing properties) ;;
  let dcid_list :=
    [ measurement_qualifier; measured_property; "NaturalHazardImpact";
      hazard_type; impacted_thing ] in
  let dcid_list := filter nonempty dcid_list in
  let dcid := join "_" dcid_list in
  let formatted :=
    HAZARD_MCF_FORMAT_BASE dcid hazard_type (drop_spaces measured_property) in
  let formatted :=
    if nonempty impacted_thing
    then formatted ++ "impactedThing: " ++ impacted_thing ++ nl
    else formatted in
  let formatted :=
    if nonempty measurement_qualifier
    then formatted ++ "measurementQualifier: " ++ measurement_qualifier ++ nl
    else formatted in
  Ok (formatted, dcid).

Definition schema_and_tmcf_from_row (r : Row) (index : nat)
  : result (string * string) :=
  '(properties, schema, statvar_dcid) <-
    (if is_composite_row r
     then
       properties <- extract_properties_from_composite_row r ;;
       let '(schema, statvar_dcid) :=
         format_composite_field_properties_to_schema properties in
       Ok (properties, schema, statvar_dcid)
     else
       properties <- extract_properties_from_ind_hazard_row r ;;
       '(schema, statvar_dcid) <-
         format_ind_hazard_field_properties_to_schema properties ;;
       Ok (properties, schema, statvar_dcid)) ;;
  let statobs_tmcf := tmcf_from_row r index statvar_dcid (unit properties) in
  Ok (schema, statobs_tmcf).

Definition field_alias_strings_to_skip (flags : Flags) : list string :=
  ((if FLAG_SKIP_EAL_COMPONENTS flags then EAL_COMPONENTS else [])
   ++ (if FLAG_SKIP_IMPACTED_THING_COMPONENTS flags
       then IMPACTED_THING_COMPONENTS else [])
   ++ (if FLAG_SKIP_NON_SCORE_RELATIVE_MEASURES flags
       then NON_SCORE_RELATIVE_MEASURES else []))%list.

Definition should_skip_component (flags : Flags) (r : Row) : bool :=
  existsb (fun eal_comp => contains eal_comp (Field_Alias r))
    (field_alias_strings_to_skip flags).

(** The loop of the main block from position [index] on, with the two
    texts built so far. *)
Fixpoint run (flags : Flags) (index : nat) (dd : list Row)
  (schema_out tmcf_out : string) : result (string * string) :=
  match dd with
  | [] => Ok (schema_out, tmcf_out)
  | r :: dd' =>
      if should_skip_component flags r
      then run flags (S index) dd' schema_out tmcf_out
      else
        '(statvar_mcf, statobs_tmcf) <- schema_and_tmcf_from_row r index ;;
        run flags (S index) dd' (schema_out ++ statvar_mcf ++ nl)
          (tmcf_out ++ statobs_tmcf)
  end.

(** The main block between reading and writing: the schema text and the
    template text. *)
Definition generate (IGNORED_FIELDS : list string) (flags : Flags)
  (dd : list Row) : result (string * string) :=
  let dd := filter (fun r => negb (mem (Field_Name r) IGNORED_FIELDS)) dd in
  run flags 0 dd "" "".

(** The rows of [dd] that are not skipped, each with its position. *)
Fixpoint numbered (flags : Flags) (index : nat) (dd : list Row)
  : list (nat * Row) :=
  match dd with
  | [] => []
  | r :: dd' =>
      if should_skip_component flags r
      then numbered flags (S index) dd'
      else (index, r) :: numbered flags (S index) dd'
  end.

End Legacy.

(** * Properties *)

(** ** The [result] monad *)

Lemma bind_Ok {A B : Type} (m : result A) (k : A -> result B) (b : B) :
  bind m k = Ok b -> exists a, m = Ok a /\ k a = Ok b.
Proof.
  destruct m as [a | e]; simpl; intros H.
  - exists a. split; [reflexivity | exact H].
  - discriminate H.
Qed.

Tactic Notation "bind_inv" hyp(H) "as" ident(a) ident(Ha) :=
  apply bind_Ok in H; destruct H as (a & Ha & H).

(** ** Strings *)

Lemma append_nil_r (s : string) : s ++ "" = s.
Proof. induction s as [| c s IH]; simpl; [reflexivity | now rewrite IH]. Qed.

Lemma append_assoc (a b c : string) : (a ++ b) ++ c = a ++ (b ++ c).
Proof. induction a as [| x a IH]; simpl; [reflexivity | now rewrite IH]. Qed.

Lemma append_eq_nil (a b : string) : a ++ b = "" -> a = "" /\ b = "".
Proof. destruct a; simpl; intros H; [now split | discriminate H]. Qed.

(** A string without the separator is one piece. *)
Lemma split_go_no_sep (sep s cur : string) :
  contains sep s = false -> split_go sep 0 cur s = [cur ++ s].
Proof.
  revert cur. induction s as [| c s IH]; intros cur H.
  - simpl. now rewrite append_nil_r.
  - cbn [contains] in H. apply orb_false_iff in H. destruct H as [Hp Hc].
    cbn [split_go]. rewrite Hp, (IH _ Hc), append_assoc. reflexivity.
Qed.

Lemma split_no_sep (sep s : string) :
  contains sep s = false -> split sep s = [s].
Proof. intros H. unfold split. now rewrite split_go_no_sep. Qed.

Lemma split_go_not_nil (sep : string) (skip : nat) (cur s : string) :
  split_go sep skip cur s <> [].
Proof.
  revert skip cur. induction s as [| c s IH]; intros skip cur; cbn [split_go].
  - discriminate.
  - destruct skip as [| k].
    + destruct (prefix sep (String c s)); [discriminate | exact (IH _ _)].
    + exact (IH _ _).
Qed.

(** ** Extraction on rows without a separator (C10) *)

Lemma second_segment_missing (r : Row) :
  contains " - " (Field_Alias r) = false ->
  get_nth_dash_from_field_alias r 0 = Ok (Field_Alias r)
  /\ get_nth_dash_from_field_alias r 1 = Raise IndexError.
Proof.
  intros H. unfold get_nth_dash_from_field_alias.
  rewrite (split_no_sep _ _ H). split; reflexivity.
Qed.

(** C10: both extractors read segment 1 of the alias whatever the row, so
    a row whose alias has no [" - "] makes either of them, the
    dispatching extractor and the whole generation raise [IndexError];
    the alias ["Avalanche"] is such a row. *)
Theorem extraction_raises_without_separator :
  (forall r : Row,
      contains " - " (Field_Alias r) = false ->
      extract_properties_from_composite_row r = Raise IndexError
      /\ extract_properties_from_ind_hazard_row r = Raise IndexError
      /\ extract_properties_from_row r = Raise IndexError)
  /\ (forall (flags : Flags) (r : Row) (dd : list Row),
         contains " - " (Field_Alias r) = false ->
         mem (Field_Name r) IGNORED_FIELDS = false ->
         should_skip_component flags r = false ->
         generate_sequences flags (r :: dd) = Raise IndexError)
  /\ generate_sequences source_flags
       [sample_row "AVLN_EVNTS" "Avalanche" "Avalanche"] = Raise IndexError.
Proof.
  assert (Hrow : forall r : Row,
             contains " - " (Field_Alias r) = false ->
             extract_properties_from_composite_row r = Raise IndexError
             /\ extract_properties_from_ind_hazard_row r = Raise IndexError
             /\ extract_properties_from_row r = Raise IndexError).
  { intros r H. destruct (second_segment_missing r H) as [H0 H1].
    assert (Hc : extract_properties_from_composite_row r = Raise IndexError).
    { unfold extract_properties_from_composite_row. rewrite H0, H1. reflexivity. }
    assert (Hi : extract_properties_from_ind_hazard_row r = Raise IndexError).
    { unfold extract_properties_from_ind_hazard_row. rewrite H0, H1. reflexivity. }
    repeat split; try assumption.
    unfold extract_properties_from_row. rewrite Hc, Hi.
    destruct (is_composite_row r); reflexivity. }
  split; [exact Hrow | split].
  - intros flags r dd H Hign Hskip.
    unfold generate_sequences, drop_ignored_fields.
    cbn [filter]. rewrite Hign. cbn [negb extract_all]. rewrite Hskip.
    destruct (Hrow r H) as (_ & _ & ->). reflexivity.
  - reflexivity.
Qed.

Lemma extraction_raises_without_separator_witness :
  generate_sequences source_flags
    (sample_row "AVLN_EVNTS" "Avalanche" "Avalanche" :: []) = Raise IndexError.
Proof.
  apply (proj1 (proj2 extraction_raises_without_separator));
    vm_compute; reflexivity.
Defined.

(** ** The two worked rows (C1, C5) *)

(** C1: an individual-hazard row whose alias is
    ["Avalanche - Expected Annual Loss Score"] is extracted to hazard type
    ["AvalancheEvent"], measured property ["expectedLoss"], unit
    ["FemaNationalRiskScore"], qualifier ["Annual"] and no impacted
    thing, and its identifier is
    ["Annual_ExpectedLoss_NaturalHazardImpact_AvalancheEvent"]. *)
Theorem avalanche_expected_annual_loss_score (r : Row) :
  Field_Alias r = "Avalanche - Expected Annual Loss Score" ->
  is_composite_row r = false ->
  exists (p : Properties) (schema : string),
    extract_properties_from_row r = Ok p
    /\ hazard_type p = Some "AvalancheEvent"
    /\ measured_property p = "expectedLoss"
    /\ unit p = "FemaNationalRiskScore"
    /\ measurement_qualifier p = Some "Annual"
    /\ impacted_thing p = Some ""
    /\ is_composite p = Some false
    /\ format_ind_hazard_field_properties_to_schema p
       = Ok (schema, "Annual_ExpectedLoss_NaturalHazardImpact_AvalancheEvent").
Proof.
  intros Halias Hlayer.
  unfold extract_properties_from_row. rewrite Hlayer.
  unfold extract_properties_from_ind_hazard_row, get_nth_dash_from_field_alias.
  rewrite Halias. cbv -[with_row].
  do 2 eexists. repeat split; reflexivity.
Qed.

Lemma avalanche_expected_annual_loss_score_witness :
  exists (p : Properties) (schema : string),
    extract_properties_from_row
      (sample_row "AVLN_EALS" "Avalanche - Expected Annual Loss Score" "Avalanche")
    = Ok p
    /\ hazard_type p = Some "AvalancheEvent"
    /\ measured_property p = "expectedLoss"
    /\ unit p = "FemaNationalRiskScore"
    /\ measurement_qualifier p = Some "Annual"
    /\ impacted_thing p = Some ""
    /\ is_composite p = Some false
    /\ format_ind_hazard_field_properties_to_schema p
       = Ok (schema, "Annual_ExpectedLoss_NaturalHazardImpact_AvalancheEvent").
Proof.
  apply (avalanche_expected_annual_loss_score
           (sample_row "AVLN_EALS" "Avalanche - Expected Annual Loss Score"
              "Avalanche")); reflexivity.
Defined.

(** What the last two steps of the individual-hazard extractor do with
    the third segment. *)
Lemma impacted_thing_of_third_segment (r : Row) (p : Properties) :
  extract_properties_from_ind_hazard_row r = Ok p ->
  (1 <? count_char "-" (Field_Alias r))%nat = true ->
  exists seg2,
    get_nth_dash_from_field_alias r 2 = Ok seg2
    /\ impacted_thing p
       = Some (if contains "Population" (drop_spaces seg2) then "Person"
               else if String.eqb (drop_spaces seg2) "Total" then ""
               else drop_spaces seg2).
Proof.
  intros H Hcount. unfold extract_properties_from_ind_hazard_row in H.
  bind_inv H as seg0 H0. bind_inv H as seg1 H1. bind_inv H as mu Hmu.
  destruct mu as [mp u].
  destruct (normalize_unit_for_measured_property mp u) as [mp' u'].
  bind_inv H as it Hit. rewrite Hcount in Hit. bind_inv Hit as seg2 H2.
  exists seg2. split; [assumption |].
  injection Hit as <-. injection H as <-. cbn [impacted_thing]. f_equal.
  destruct (String.eqb (drop_spaces seg2) "Total") eqn:Htotal.
  - apply String.eqb_eq in Htotal. rewrite Htotal. reflexivity.
  - reflexivity.
Qed.

(** C5: the alias ["Coastal Flooding - Historic Loss Ratio - Population"]
    of an individual-hazard row that is not skipped gives hazard type
    ["CoastalFloodEvent"] and impacted thing ["Person"]; and whatever the
    row, a third segment that contains ["Population"] gives ["Person"]. *)
Theorem coastal_flooding_population :
  (forall (flags : Flags) (r : Row),
      Field_Alias r = "Coastal Flooding - Historic Loss Ratio - Population" ->
      is_composite_row r = false ->
      should_skip_component flags r = false ->
      exists p : Properties,
        extract_all flags [r] = Ok [p]
        /\ hazard_type p = Some "CoastalFloodEvent"
        /\ impacted_thing p = Some "Person")
  /\ (forall (r : Row) (p : Properties) (seg2 : string),
         extract_properties_from_ind_hazard_row r = Ok p ->
         (1 <? count_char "-" (Field_Alias r))%nat = true ->
         get_nth_dash_from_field_alias r 2 = Ok seg2 ->
         contains "Population" (drop_spaces seg2) = true ->
         impacted_thing p = Some "Person").
Proof.
  split.
  - intros flags r Halias Hlayer Hskip.
    cbn [extract_all]. rewrite Hskip.
    unfold extract_properties_from_row. rewrite Hlayer.
    unfold extract_properties_from_ind_hazard_row, get_nth_dash_from_field_alias.
    rewrite Halias. cbv -[with_row].
    eexists. repeat split; reflexivity.
  - intros r p seg2 H Hcount Hseg Hpop.
    destruct (impacted_thing_of_third_segment r p H Hcount) as (s & Hs & ->).
    rewrite Hseg in Hs. injection Hs as <-. now rewrite Hpop.
Qed.

Lemma coastal_flooding_population_witness :
  exists p : Properties,
    extract_all
      {| FLAG_SKIP_EAL_COMPONENTS := false;
         FLAG_SKIP_IMPACTED_THING_COMPONENTS := false;
         FLAG_SKIP_NON_SCORE_RELATIVE_MEASURES := true;
         FLAG_SKIP_RAW_VALUES := true |}
      [sample_row "CFLD_HLRP" "Coastal Flooding - Historic Loss Ratio - Population"
         "Coastal Flooding"]
    = Ok [p]
    /\ hazard_type p = Some "CoastalFloodEvent"
    /\ impacted_thing p = Some "Person".
Proof.
  apply (proj1 coastal_flooding_population); reflexivity.
Defined.

(** ** The impacted thing (C3) *)

Lemma impacted_thing_without_third_segment (r : Row) (p : Properties) :
  extract_properties_from_ind_hazard_row r = Ok p ->
  (1 <? count_char "-" (Field_Alias r))%nat = false ->
  impacted_thing p = Some "".
Proof.
  intros H Hcount. unfold extract_properties_from_ind_hazard_row in H.
  bind_inv H as seg0 H0. bind_inv H as seg1 H1. bind_inv H as mu Hmu.
  destruct mu as [mp u].
  destruct (normalize_unit_for_measured_property mp u) as [mp' u'].
  bind_inv H as it Hit. rewrite Hcount in Hit.
  injection Hit as <-. injection H as <-. reflexivity.
Qed.

Lemma extract_row_not_composite (r : Row) (p : Properties) :
  is_composite_row r = false ->
  extract_properties_from_row r = Ok p ->
  exists q,
    extract_properties_from_ind_hazard_row r = Ok q /\ p = with_row q false r.
Proof.
  intros Hlayer H. unfold extract_properties_from_row in H. rewrite Hlayer in H.
  bind_inv H as q Hq. exists q. split; [assumption | congruence].
Qed.

Lemma extract_row_composite (r : Row) (p : Properties) :
  is_composite_row r = true ->
  extract_properties_from_row r = Ok p ->
  exists q,
    extract_properties_from_composite_row r = Ok q /\ p = with_row q true r.
Proof.
  intros Hlayer H. unfold extract_properties_from_row in H. rewrite Hlayer in H.
  bind_inv H as q Hq. exists q. split; [assumption | congruence].
Qed.

(** C3: on an individual-hazard row the impacted thing is empty unless
    the alias has a third segment that is not ["Total"]; with exactly one
    dash in the alias it is empty. *)
Theorem impacted_thing_needs_third_segment (r : Row) (p : Properties) :
  is_composite_row r = false ->
  extract_properties_from_row r = Ok p ->
  (impacted_thing p <> Some "" ->
   exists seg2,
     get_nth_dash_from_field_alias r 2 = Ok seg2
     /\ seg2 <> "Total" /\ drop_spaces seg2 <> "Total")
  /\ (count_char "-" (Field_Alias r) = 1 -> impacted_thing p = Some "").
Proof.
  intros Hlayer H.
  destruct (extract_row_not_composite r p Hlayer H) as (q & Hq & ->).
  cbn [with_row impacted_thing]. split.
  - intros Hne.
    destruct (1 <? count_char "-" (Field_Alias r))%nat eqn:Hcount.
    + destruct (impacted_thing_of_third_segment r q Hq Hcount)
        as (seg2 & Hseg & Hit).
      exists seg2. split; [assumption |].
      assert (Hd : drop_spaces seg2 <> "Total").
      { intros Heq. apply Hne. rewrite Hit, Heq. reflexivity. }
      split; [| assumption].
      intros ->. apply Hd. reflexivity.
    + exfalso. apply Hne.
      exact (impacted_thing_without_third_segment r q Hq Hcount).
  - intros Hone.
    apply (impacted_thing_without_third_segment r q Hq).
    rewrite Hone. reflexivity.
Qed.

Lemma impacted_thing_needs_third_segment_witness :
  impacted_thing
    {| hazard_type := Some "AvalancheEvent";
       measured_property := "expectedLoss";
       measurement_qualifier := Some "Annual";
       impacted_thing := Some "";
       unit := "FemaNationalRiskScore";
       is_composite := Some false;
       row := Some (sample_row "AVLN_EALS"
                      "Avalanche - Expected Annual Loss Score" "Avalanche") |}
  = Some "".
Proof.
  apply (impacted_thing_needs_third_segment
           (sample_row "AVLN_EALS" "Avalanche - Expected Annual Loss Score"
              "Avalanche"));
    reflexivity.
Defined.

(** ** The unit vocabulary (C2) *)

Lemma normalize_unit_vocabulary (mp u : string) :
  fst (normalize_unit_for_measured_property mp u) = mp
  /\ In (snd (normalize_unit_for_measured_property mp u)) unit_vocabulary.
Proof.
  unfold normalize_unit_for_measured_property, unit_vocabulary.
  destruct (String.eqb u "FemaNationalRiskScore") eqn:Hu; cbn [negb].
  - apply String.eqb_eq in Hu. subst u. cbn. auto.
  - destruct (String.eqb mp "expectedLoss"); cbn; auto.
Qed.

Lemma composite_unit_vocabulary (r : Row) (p : Properties) :
  extract_properties_from_composite_row r = Ok p -> In (unit p) unit_vocabulary.
Proof.
  intros H. unfold extract_properties_from_composite_row in H.
  bind_inv H as seg0 H0. bind_inv H as seg1 H1.
  match type of H with
  | context [normalize_unit_for_measured_property ?m ?u] =>
      pose proof (normalize_unit_vocabulary m u) as [_ Hin];
      destruct (normalize_unit_for_measured_property m u) as [mp' u']
  end.
  injection H as <-. exact Hin.
Qed.

Lemma ind_hazard_unit_vocabulary (r : Row) (p : Properties) :
  extract_properties_from_ind_hazard_row r = Ok p -> In (unit p) unit_vocabulary.
Proof.
  intros H. unfold extract_properties_from_ind_hazard_row in H.
  bind_inv H as seg0 H0. bind_inv H as seg1 H1. bind_inv H as mu Hmu.
  destruct mu as [mp u].
  pose proof (normalize_unit_vocabulary mp u) as [_ Hin].
  destruct (normalize_unit_for_measured_property mp u) as [mp' u'].
  bind_inv H as it Hit. injection H as <-. exact Hin.
Qed.

Lemma normalize_expected_loss_unit (mp u : string) :
  mp = "expectedLoss" ->
  snd (normalize_unit_for_measured_property mp u) <> "".
Proof.
  intros ->. unfold normalize_unit_for_measured_property.
  destruct (String.eqb u "FemaNationalRiskScore") eqn:Hu; cbn.
  - apply String.eqb_eq in Hu. subst u. discriminate.
  - discriminate.
Qed.

Lemma composite_expected_loss_unit (r : Row) (p : Properties) :
  extract_properties_from_composite_row r = Ok p ->
  measured_property p = "expectedLoss" -> unit p <> "".
Proof.
  intros H. unfold extract_properties_from_composite_row in H.
  bind_inv H as seg0 H0. bind_inv H as seg1 H1.
  match type of H with
  | context [normalize_unit_for_measured_property ?m ?u] =>
      pose proof (normalize_unit_vocabulary m u) as [Hfst _];
      pose proof (normalize_expected_loss_unit m u) as Hsnd;
      destruct (normalize_unit_for_measured_property m u) as [mp' u']
  end.
  cbn [fst snd] in Hfst, Hsnd. injection H as <-.
  cbn [measured_property unit]. intros Hmp. apply Hsnd. congruence.
Qed.

Lemma ind_hazard_annual_unit (r : Row) (p : Properties) :
  extract_properties_from_ind_hazard_row r = Ok p ->
  measurement_qualifier p = Some "Annual" -> unit p <> "".
Proof.
  intros H. unfold extract_properties_from_ind_hazard_row in H.
  bind_inv H as seg0 H0. bind_inv H as seg1 H1. bind_inv H as mu Hmu.
  destruct mu as [mp u].
  pose proof (normalize_unit_vocabulary mp u) as [Hfst _].
  pose proof (normalize_expected_loss_unit mp u) as Hsnd.
  destruct (normalize_unit_for_measured_property mp u) as [mp' u'].
  cbn [fst snd] in Hfst, Hsnd. subst mp'.
  bind_inv H as it Hit. injection H as <-.
  cbn [measurement_qualifier unit].
  destruct (String.eqb mp "expectedLoss") eqn:E; [| discriminate].
  intros _. apply Hsnd. now apply String.eqb_eq.
Qed.

(** C2, as the program has it: after extraction the unit of every row is
    the risk-score token, the currency token or empty; normalising the
    unit of the annualized-loss property keeps the risk-score token and
    turns every other unit into the currency token, never into the empty
    string; so a composite row with that property, and an
    individual-hazard row that got the annual qualifier for it (its
    property was the token when the unit was normalised, before the
    spaces were dropped), have a unit. *)
Theorem unit_vocabulary_closed :
  (forall (r : Row) (p : Properties),
      extract_properties_from_row r = Ok p -> In (unit p) unit_vocabulary)
  /\ (forall u : string,
         normalize_unit_for_measured_property "expectedLoss" u
         = ("expectedLoss",
            if String.eqb u "FemaNationalRiskScore"
            then "FemaNationalRiskScore" else "dcid:USDollar")
         /\ snd (normalize_unit_for_measured_property "expectedLoss" u) <> "")
  /\ (forall (r : Row) (p : Properties),
         extract_properties_from_row r = Ok p ->
         (is_composite_row r = true ->
          measured_property p = "expectedLoss" -> unit p <> "")
         /\ (measurement_qualifier p = Some "Annual" -> unit p <> "")).
Proof.
  split; [| split].
  - intros r p H. destruct (is_composite_row r) eqn:Hlayer.
    + destruct (extract_row_composite r p Hlayer H) as (q & Hq & ->).
      exact (composite_unit_vocabulary r q Hq).
    + destruct (extract_row_not_composite r p Hlayer H) as (q & Hq & ->).
      exact (ind_hazard_unit_vocabulary r q Hq).
  - intros u. unfold normalize_unit_for_measured_property.
    destruct (String.eqb u "FemaNationalRiskScore") eqn:Hu; cbn.
    + apply String.eqb_eq in Hu. subst u. split; [reflexivity | discriminate].
    + split; [reflexivity | discriminate].
  - intros r p H. destruct (is_composite_row r) eqn:Hlayer.
    + destruct (extract_row_composite r p Hlayer H) as (q & Hq & ->).
      cbn [with_row measured_property measurement_qualifier unit]. split.
      * intros _. exact (composite_expected_loss_unit r q Hq).
      * unfold extract_properties_from_composite_row in Hq.
        bind_inv Hq as seg0 H0. bind_inv Hq as seg1 H1.
        destruct (normalize_unit_for_measured_property _ _) as [mp' u'] in Hq.
        injection Hq as <-. discriminate.
    + destruct (extract_row_not_composite r p Hlayer H) as (q & Hq & ->).
      cbn [with_row measured_property measurement_qualifier unit]. split.
      * discriminate.
      * exact (ind_hazard_annual_unit r q Hq).
Qed.

Lemma unit_vocabulary_closed_witness :
  In (unit
        {| hazard_type := None;
           measured_property := "expectedLoss";
           measurement_qualifier := None;
           impacted_thing := None;
           unit := "dcid:USDollar";
           is_composite := Some true;
           row := Some (sample_row "EAL_VALT" "Expected Annual Loss - Total"
                          "Expected Annual Loss") |})
    unit_vocabulary.
Proof.
  apply (proj1 unit_vocabulary_closed
           (sample_row "EAL_VALT" "Expected Annual Loss - Total"
              "Expected Annual Loss")).
  reflexivity.
Defined.


(** ** De-duplication (C6, C7) *)

Section PruneFacts.

Context {A : Type} (eqb : A -> A -> bool).
Hypothesis eqb_eq : forall x y : A, eqb x y = true <-> x = y.

Lemma existsb_eqb_In (x : A) (l : list A) :
  existsb (eqb x) l = true <-> In x l.
Proof.
  rewrite existsb_exists. split.
  - intros (y & Hy & Hxy). apply eqb_eq in Hxy. now subst.
  - intros H. exists x. split; [assumption | now apply eqb_eq].
Qed.

Lemma existsb_eqb_same_members (x : A) (k seen : list A) :
  (forall y, In y k <-> In y seen) ->
  existsb (eqb x) k = existsb (eqb x) seen.
Proof.
  intros Hks.
  destruct (existsb (eqb x) k) eqn:Hk, (existsb (eqb x) seen) eqn:Hs;
    try reflexivity.
  - apply existsb_eqb_In, Hks, existsb_eqb_In in Hk. congruence.
  - apply existsb_eqb_In, Hks, existsb_eqb_In in Hs. congruence.
Qed.

(** The loop invariant: [k] holds the first occurrences among the
    elements read so far. *)
Lemma fold_prune_step (l k seen : list A) :
  (forall y, In y k <-> In y seen) ->
  fold_left (prune_step eqb) l k
  = (k ++ first_occurrences_from eqb seen l)%list.
Proof.
  revert k seen. induction l as [| x l IH]; intros k seen Hks.
  - cbn. now rewrite app_nil_r.
  - cbn [fold_left first_occurrences_from]. unfold prune_step at 2.
    rewrite (existsb_eqb_same_members x k seen Hks).
    destruct (existsb (eqb x) seen) eqn:Hx.
    + apply IH. intros y. rewrite in_app_iff, Hks. cbn.
      apply existsb_eqb_In in Hx. intuition (subst; auto).
    + rewrite (IH (k ++ [x])%list (seen ++ [x])%list).
      * rewrite <- app_assoc. reflexivity.
      * intros y. rewrite !in_app_iff, Hks. reflexivity.
Qed.

Lemma prune_first_occurrences (l : list A) :
  prune_list_dupes eqb l = first_occurrences eqb l.
Proof.
  unfold prune_list_dupes, first_occurrences.
  now rewrite (fold_prune_step l [] []).
Qed.

Lemma first_occurrences_from_In (l seen : list A) (x : A) :
  In x (first_occurrences_from eqb seen l) <-> In x l /\ ~ In x seen.
Proof.
  revert seen. induction l as [| y l IH]; intros seen.
  - cbn. tauto.
  - cbn [first_occurrences_from].
    assert (Hdec : x = y \/ x <> y).
    { destruct (eqb x y) eqn:E; [left; now apply eqb_eq | right].
      intros Heq. apply eqb_eq in Heq. congruence. }
    destruct (existsb (eqb y) seen) eqn:Hy.
    + apply existsb_eqb_In in Hy. rewrite IH, in_app_iff. cbn.
      destruct Hdec as [-> | Hne]; [tauto | intuition congruence].
    + assert (Hn : ~ In y seen).
      { intros Hin. apply existsb_eqb_In in Hin. congruence. }
      cbn [In]. rewrite IH, in_app_iff. cbn.
      destruct Hdec as [-> | Hne]; [tauto | intuition congruence].
Qed.

Lemma first_occurrences_from_NoDup (l seen : list A) :
  NoDup (first_occurrences_from eqb seen l).
Proof.
  revert seen. induction l as [| y l IH]; intros seen.
  - constructor.
  - cbn [first_occurrences_from].
    destruct (existsb (eqb y) seen); [apply IH |].
    constructor; [| apply IH].
    rewrite first_occurrences_from_In, in_app_iff. cbn. tauto.
Qed.

(** A list without repetition is its own list of first occurrences. *)
Lemma first_occurrences_from_fixed (l seen : list A) :
  NoDup l -> (forall x, In x l -> ~ In x seen) ->
  first_occurrences_from eqb seen l = l.
Proof.
  revert seen. induction l as [| y l IH]; intros seen Hnd Hdisj.
  - reflexivity.
  - inversion Hnd as [| ? ? Hy Hl]; subst. cbn [first_occurrences_from].
    destruct (existsb (eqb y) seen) eqn:E.
    + apply existsb_eqb_In in E. exfalso. apply (Hdisj y); [now left | exact E].
    + f_equal. apply IH; [assumption |].
      intros x Hx. rewrite in_app_iff. cbn.
      intros [Hs | [-> | []]]; [| contradiction].
      apply (Hdisj x); [now right | exact Hs].
Qed.

Lemma prune_NoDup (l : list A) : NoDup (prune_list_dupes eqb l).
Proof. rewrite prune_first_occurrences. apply first_occurrences_from_NoDup. Qed.

Lemma prune_In (l : list A) (x : A) :
  In x (prune_list_dupes eqb l) <-> In x l.
Proof.
  rewrite prune_first_occurrences. unfold first_occurrences.
  rewrite first_occurrences_from_In. cbn. tauto.
Qed.

Lemma prune_fixed (l : list A) :
  NoDup l -> prune_list_dupes eqb l = l.
Proof.
  intros H. rewrite prune_first_occurrences.
  apply first_occurrences_from_fixed; [assumption | intros x _ []].
Qed.

End PruneFacts.

(** C7: pruning a pruned list changes nothing. *)
Theorem prune_list_dupes_idempotent
  {A : Type} (eqb : A -> A -> bool)
  (eqb_eq : forall x y : A, eqb x y = true <-> x = y) (l : list A) :
  prune_list_dupes eqb (prune_list_dupes eqb l) = prune_list_dupes eqb l.
Proof.
  apply (prune_fixed eqb eqb_eq). apply (prune_NoDup eqb eqb_eq).
Qed.

Lemma prune_list_dupes_idempotent_witness :
  prune_list_dupes String.eqb
    (prune_list_dupes String.eqb ["AVLN_EALS"; "AVLN_RISKS"; "AVLN_EALS"])
  = prune_list_dupes String.eqb ["AVLN_EALS"; "AVLN_RISKS"; "AVLN_EALS"].
Proof.
  apply (prune_list_dupes_idempotent String.eqb String.eqb_eq).
Defined.

Lemma extract_row_keeps_row (r : Row) (p : Properties) :
  extract_properties_from_row r = Ok p -> row p = Some r.
Proof.
  unfold extract_properties_from_row. intros H.
  destruct (is_composite_row r); bind_inv H as q Hq;
    injection H as <-; reflexivity.
Qed.

Lemma generate_sequences_prunes (flags : Flags) (dd : list Row) (o : Outputs) :
  generate_sequences flags dd = Ok o ->
  exists (ps : list Properties) (s t c : list string),
    extract_all flags (drop_ignored_fields dd) = Ok ps
    /\ format_all 0 ps = Ok (s, t, c)
    /\ schemas o = prune_list_dupes String.eqb s
    /\ tmcfs o = prune_list_dupes String.eqb t
    /\ csv_columns o = prune_list_dupes String.eqb c.
Proof.
  unfold generate_sequences. intros H.
  bind_inv H as ps Hps. bind_inv H as stc Hstc. destruct stc as [[s t] c].
  injection H as <-. exists ps, s, t, c. repeat split; assumption.
Qed.

(** C6: pruning keeps exactly the first occurrence of each distinct
    element, in the order of the list; the generation prunes its three
    sequences one by one; so two rows with the same schema text and
    different column names leave one schema and both column names. *)
Theorem prune_list_dupes_first_occurrences :
  (forall (A : Type) (eqb : A -> A -> bool),
      (forall x y : A, eqb x y = true <-> x = y) ->
      forall l : list A,
        prune_list_dupes eqb l = first_occurrences eqb l
        /\ NoDup (prune_list_dupes eqb l)
        /\ (forall x, In x (prune_list_dupes eqb l) <-> In x l))
  /\ (forall (flags : Flags) (dd : list Row) (o : Outputs),
         generate_sequences flags dd = Ok o ->
         exists (ps : list Properties) (s t c : list string),
           extract_all flags (drop_ignored_fields dd) = Ok ps
           /\ format_all 0 ps = Ok (s, t, c)
           /\ schemas o = prune_list_dupes String.eqb s
           /\ tmcfs o = prune_list_dupes String.eqb t
           /\ csv_columns o = prune_list_dupes String.eqb c)
  /\ (forall (flags : Flags) (r1 r2 : Row) (p1 p2 : Properties)
             (schema tmcf1 tmcf2 : string),
         mem (Field_Name r1) IGNORED_FIELDS = false ->
         mem (Field_Name r2) IGNORED_FIELDS = false ->
         should_skip_component flags r1 = false ->
         should_skip_component flags r2 = false ->
         extract_properties_from_row r1 = Ok p1 ->
         extract_properties_from_row r2 = Ok p2 ->
         schema_and_tmcf_from_properties p1 0 = Ok (schema, tmcf1) ->
         schema_and_tmcf_from_properties p2 1 = Ok (schema, tmcf2) ->
         Field_Name r1 <> Field_Name r2 ->
         exists o : Outputs,
           generate_sequences flags [r1; r2] = Ok o
           /\ schemas o = [schema]
           /\ csv_columns o = [Field_Name r1; Field_Name r2]).
Proof.
  split; [| split].
  - intros A eqb eqb_eq l. split; [| split].
    + apply (prune_first_occurrences eqb eqb_eq).
    + apply (prune_NoDup eqb eqb_eq).
    + intros x. apply (prune_In eqb eqb_eq).
  - exact generate_sequences_prunes.
  - intros flags r1 r2 p1 p2 schema tmcf1 tmcf2
      Hi1 Hi2 Hs1 Hs2 Hp1 Hp2 Hf1 Hf2 Hne.
    unfold generate_sequences, drop_ignored_fields.
    cbn [filter]. rewrite Hi1, Hi2. cbn [negb extract_all].
    rewrite Hs1, Hs2, Hp1, Hp2. cbn [bind format_all].
    rewrite Hf1, Hf2, (extract_row_keeps_row r1 p1 Hp1),
      (extract_row_keeps_row r2 p2 Hp2).
    cbn [bind get]. eexists. split; [reflexivity |].
    cbn [schemas csv_columns]. unfold prune_list_dupes, prune_step.
    cbn [fold_left existsb app orb].
    rewrite String.eqb_refl.
    assert (Hneq : String.eqb (Field_Name r2) (Field_Name r1) = false).
    { apply String.eqb_neq. congruence. }
    rewrite Hneq. split; reflexivity.
Qed.

Lemma prune_list_dupes_first_occurrences_witness :
  exists o : Outputs,
    generate_sequences source_flags
      [ sample_row "AVLN_EALS" "Avalanche - Expected Annual Loss Score" "Avalanche";
        sample_row "AVLN_EALS_2" "Avalanche - Expected Annual Loss Score"
          "Avalanche" ]
    = Ok o
    /\ schemas o
       = [ HAZARD_MCF_FORMAT_BASE
             "Annual_ExpectedLoss_NaturalHazardImpact_AvalancheEvent"
             "AvalancheEvent" "expectedLoss"
             "Annual Expected Loss from Natural Hazard Impact: Avalanche"
           ++ "measurementQualifier: dcid:Annual" ++ nl ]
    /\ csv_columns o = ["AVLN_EALS"; "AVLN_EALS_2"].
Proof.
  eapply (proj2 (proj2 prune_list_dupes_first_occurrences) source_flags
            (sample_row "AVLN_EALS" "Avalanche - Expected Annual Loss Score"
               "Avalanche")
            (sample_row "AVLN_EALS_2" "Avalanche - Expected Annual Loss Score"
               "Avalanche"));
    try (vm_compute; reflexivity).
  vm_compute. discriminate.
Defined.

(** ** Underscores in the identifier (C8) *)

Lemma leading_cons (c : ascii) (s : string) :
  prefix "_" (String c s) = Ascii.eqb c "_".
Proof.
  change (prefix "_" (String c s))
    with (if ascii_dec "_" c then prefix "" s else false).
  destruct (ascii_dec "_" c) as [<- | Hne].
  - destruct s; reflexivity.
  - symmetry. apply Ascii.eqb_neq. congruence.
Qed.

Lemma doubled_cons (c : ascii) (s : string) :
  contains "__" (String c s)
  = (Ascii.eqb c "_" && prefix "_" s) || contains "__" s.
Proof.
  cbn [contains]. f_equal.
  change (prefix "__" (String c s))
    with (if ascii_dec "_" c then prefix "_" s else false).
  destruct (ascii_dec "_" c) as [<- | Hne]; [reflexivity |].
  assert (E : Ascii.eqb c "_" = false) by (apply Ascii.eqb_neq; congruence).
  now rewrite E.
Qed.

Lemma leading_app (a b : string) :
  a <> "" -> prefix "_" (a ++ b) = prefix "_" a.
Proof.
  destruct a as [| c a]; [congruence |]. intros _.
  cbn [append]. now rewrite !leading_cons.
Qed.

Lemma trailing_app (c : ascii) (a b : string) :
  b <> "" -> ends_with_char c (a ++ b) = ends_with_char c b.
Proof.
  intros Hb. induction a as [| d a IH]; [reflexivity |].
  cbn [append ends_with_char]. rewrite IH.
  destruct (a ++ b) eqn:E; [| reflexivity].
  apply append_eq_nil in E. destruct E. congruence.
Qed.

Lemma doubled_app (a b : string) :
  contains "__" (a ++ b)
  = contains "__" a || contains "__" b
    || (ends_with_char "_" a && prefix "_" b).
Proof.
  induction a as [| c a IH].
  - cbn [append ends_with_char andb]. change (contains "__" "") with false.
    cbn [orb]. now rewrite orb_false_r.
  - cbn [append]. rewrite !doubled_cons, IH.
    destruct a as [| d a].
    + cbn [append ends_with_char]. change (contains "__" "") with false.
      change (prefix "_" "") with false.
      destruct (Ascii.eqb c "_"), (prefix "_" b), (contains "__" b); reflexivity.
    + rewrite leading_app by discriminate.
      change (ends_with_char "_" (String c (String d a)))
        with (ends_with_char "_" (String d a)).
      destruct (Ascii.eqb c "_" && prefix "_" (String d a)),
        (contains "__" (String d a)), (contains "__" b),
        (ends_with_char "_" (String d a) && prefix "_" b); reflexivity.
Qed.

(** Joining two non-empty strings with an underscore adds no leading, no
    trailing and no doubled underscore, and hides none. *)
Lemma tidy_underscore_between (a b : string) :
  a <> "" -> b <> "" ->
  tidy_underscores (a ++ "_" ++ b) = tidy_underscores a && tidy_underscores b.
Proof.
  intros Ha Hb. unfold tidy_underscores.
  rewrite (leading_app a) by assumption.
  rewrite (trailing_app "_" a ("_" ++ b)) by discriminate.
  rewrite (trailing_app "_" "_" b) by assumption.
  rewrite (doubled_app a), (doubled_app "_" b).
  change (contains "__" "_") with false.
  change (ends_with_char "_" "_") with true.
  replace (prefix "_" ("_" ++ b)) with true
    by (symmetry; exact (leading_cons "_" b)).
  destruct (prefix "_" a), (ends_with_char "_" a), (contains "__" a),
    (prefix "_" b), (ends_with_char "_" b), (contains "__" b); reflexivity.
Qed.

Lemma join_cons_cons (sep x y : string) (l : list string) :
  join sep (x :: y :: l) = x ++ sep ++ join sep (y :: l).
Proof. reflexivity. Qed.

Lemma join_not_nil (sep x : string) (l : list string) :
  x <> "" -> join sep (x :: l) <> "".
Proof.
  intros Hx. destruct l as [| y l]; [exact Hx |].
  rewrite join_cons_cons. intros E. apply append_eq_nil in E. tauto.
Qed.

Lemma tidy_join (l : list string) :
  Forall (fun x => x <> "") l ->
  tidy_underscores (join "_" l) = forallb tidy_underscores l.
Proof.
  induction 1 as [| x l Hx Hl IH]; [reflexivity |].
  destruct l as [| y l].
  - cbn. now rewrite andb_true_r.
  - rewrite join_cons_cons, tidy_underscore_between; try assumption.
    + rewrite IH. reflexivity.
    + apply join_not_nil. now inversion Hl.
Qed.

Lemma upper_char_underscore (c : ascii) :
  Ascii.eqb (upper_char c) "_" = Ascii.eqb c "_".
Proof. destruct c as [[] [] [] [] [] [] [] []]; reflexivity. Qed.

Lemma tidy_capitalize_first (s t : string) :
  capitalize_first s = Ok t ->
  tidy_underscores t = tidy_underscores s /\ t <> "".
Proof.
  destruct s as [| c s]; [discriminate |]. cbn. intros H. injection H as <-.
  split; [| discriminate]. unfold tidy_underscores.
  rewrite !leading_cons, !doubled_cons, upper_char_underscore.
  f_equal. f_equal. destruct s; [| reflexivity].
  cbn [ends_with_char]. now rewrite upper_char_underscore.
Qed.

Lemma tidy_capitalize_all (l l' : list string) :
  capitalize_all l = Ok l' ->
  forallb tidy_underscores l' = forallb tidy_underscores l
  /\ Forall (fun x => x <> "") l'.
Proof.
  revert l'. induction l as [| x l IH]; intros l' H.
  - injection H as <-. split; [reflexivity | constructor].
  - cbn [capitalize_all] in H. bind_inv H as y Hy. bind_inv H as ys Hys.
    injection H as <-. destruct (tidy_capitalize_first x y Hy) as [Ht Hn].
    destruct (IH ys Hys) as [IH1 IH2]. split.
    + cbn [forallb]. now rewrite Ht, IH1.
    + now constructor.
Qed.

Lemma tidy_filter_nonempty (l : list string) :
  forallb tidy_underscores (filter nonempty l) = forallb tidy_underscores l.
Proof.
  induction l as [| x l IH]; [reflexivity |].
  destruct x as [| c x]; cbn [filter nonempty forallb]; rewrite IH; reflexivity.
Qed.

Lemma format_ind_hazard_dcid (p : Properties) (schema dcid : string) :
  format_ind_hazard_field_properties_to_schema p = Ok (schema, dcid) ->
  exists (q h it : string) (names : list string),
    measurement_qualifier p = Some q
    /\ hazard_type p = Some h
    /\ impacted_thing p = Some it
    /\ capitalize_all
         (filter nonempty [q; measured_property p; "NaturalHazardImpact"; h; it])
       = Ok names
    /\ dcid = join "_" names.
Proof.
  unfold format_ind_hazard_field_properties_to_schema. intros H.
  bind_inv H as h Hh. bind_inv H as q Hq. bind_inv H as it Hit.
  bind_inv H as names Hnames. bind_inv H as name Hname.
  injection H as _ <-.
  exists q, h, it, names.
  destruct (hazard_type p); [| discriminate]. injection Hh as ->.
  destruct (measurement_qualifier p); [| discriminate]. injection Hq as ->.
  destruct (impacted_thing p); [| discriminate]. injection Hit as ->.
  repeat split. exact Hnames.
Qed.

(** C8, as the program has it: the identifier has no leading, no trailing
    and no doubled underscore exactly when none of its components has
    one; dropping the empty components keeps the joining underscores
    apart. *)
Theorem dcid_underscores_from_components :
  (forall (p : Properties) (schema dcid : string),
      format_ind_hazard_field_properties_to_schema p = Ok (schema, dcid) ->
      exists q h it : string,
        measurement_qualifier p = Some q
        /\ hazard_type p = Some h
        /\ impacted_thing p = Some it
        /\ tidy_underscores dcid
           = forallb tidy_underscores [q; measured_property p; h; it])
  /\ (forall (p : Properties) (schema dcid : string),
         format_composite_field_properties_to_schema p = Ok (schema, dcid) ->
         tidy_underscores dcid = tidy_underscores (measured_property p)).
Proof.
  split.
  - intros p schema dcid H.
    destruct (format_ind_hazard_dcid p schema dcid H)
      as (q & h & it & names & Hq & Hh & Hit & Hnames & ->).
    exists q, h, it. repeat split; try assumption.
    destruct (tidy_capitalize_all _ _ Hnames) as [Hsame Hne].
    rewrite (tidy_join names Hne), Hsame, tidy_filter_nonempty.
    cbn [forallb]. change (tidy_underscores "NaturalHazardImpact") with true.
    reflexivity.
  - intros p schema dcid H.
    unfold format_composite_field_properties_to_schema in H.
    bind_inv H as cap Hcap. bind_inv H as name Hname. injection H as _ <-.
    destruct (tidy_capitalize_first _ _ Hcap) as [Hsame Hne].
    destruct (String.eqb (measured_property p) "expectedLoss") eqn:E.
    + apply String.eqb_eq in E. rewrite E in Hcap |- *.
      injection Hcap as <-. reflexivity.
    + rewrite <- Hsame.
      change (cap ++ "_NaturalHazardImpact")
        with (cap ++ "_" ++ "NaturalHazardImpact").
      rewrite tidy_underscore_between by (assumption || discriminate).
      change (tidy_underscores "NaturalHazardImpact") with true.
      apply andb_true_r.
Qed.

Lemma dcid_underscores_from_components_witness :
  tidy_underscores "Annual_ExpectedLoss_NaturalHazardImpact_AvalancheEvent"
  = forallb tidy_underscores ["Annual"; "expectedLoss"; "AvalancheEvent"; ""].
Proof.
  destruct (proj1 dcid_underscores_from_components
              {| hazard_type := Some "AvalancheEvent";
                 measured_property := "expectedLoss";
                 measurement_qualifier := Some "Annual";
                 impacted_thing := Some "";
                 unit := "FemaNationalRiskScore";
                 is_composite := Some false;
                 row := None |}
              (HAZARD_MCF_FORMAT_BASE
                 "Annual_ExpectedLoss_NaturalHazardImpact_AvalancheEvent"
                 "AvalancheEvent" "expectedLoss"
                 "Annual Expected Loss from Natural Hazard Impact: Avalanche"
               ++ "measurementQualifier: dcid:Annual" ++ nl)
              "Annual_ExpectedLoss_NaturalHazardImpact_AvalancheEvent"
              eq_refl)
    as (q & h & it & Hq & Hh & Hit & Htidy).
  injection Hq as <-. injection Hh as <-. injection Hit as <-. exact Htidy.
Defined.

(** C8 as stated fails: a hazard label that starts with an underscore
    puts two underscores in a row into the identifier. *)
Lemma dcid_double_underscore :
  exists (p : Properties) (schema : string),
    extract_properties_from_row
      (sample_row "AVLN_EXPT" "_Avalanche - Expected Annual Loss Score"
         "Avalanche")
    = Ok p
    /\ format_ind_hazard_field_properties_to_schema p
       = Ok (schema, "Annual_ExpectedLoss_NaturalHazardImpact__AvalancheEvent")
    /\ contains "__" "Annual_ExpectedLoss_NaturalHazardImpact__AvalancheEvent"
       = true
    /\ tidy_underscores "Annual_ExpectedLoss_NaturalHazardImpact__AvalancheEvent"
       = false.
Proof.
  do 2 eexists. repeat split; vm_compute; reflexivity.
Qed.

(** C2 as stated fails at the level of the row: the retained row
    ["Avalanche - expected Loss"] ends with the measured property
    ["expectedLoss"] and no unit, because the unit is normalised while
    the property still holds its space. *)
Lemma unit_empty_for_spaced_expected_loss :
  should_skip_component source_flags
    (sample_row "AVLN_EALT" "Avalanche - expected Loss" "Avalanche") = false
  /\ extract_all source_flags
       (drop_ignored_fields
          [sample_row "AVLN_EALT" "Avalanche - expected Loss" "Avalanche"])
     = Ok [ {| hazard_type := Some "AvalancheEvent";
               measured_property := "expectedLoss";
               measurement_qualifier := Some "";
               impacted_thing := Some "";
               unit := "";
               is_composite := Some false;
               row := Some (sample_row "AVLN_EALT" "Avalanche - expected Loss"
                              "Avalanche") |} ].
Proof. split; reflexivity. Qed.

(** ** When the measured property is empty (C4) *)

Lemma blank_lstrip (s : string) : delete_all " " s = "" -> lstrip s = "".
Proof.
  induction s as [| c s IH]; [reflexivity |]. cbn [delete_all lstrip].
  destruct (Ascii.eqb c " ") eqn:E; [| discriminate].
  apply Ascii.eqb_eq in E. subst c. exact IH.
Qed.

Lemma blank_strip (s : string) : delete_all " " s = "" -> strip s = "".
Proof. intros H. unfold strip. now rewrite (blank_lstrip s H). Qed.

Lemma alias_value_not_blank (key v : string) :
  lookup key DATACOMMONS_ALIASES = Some v -> drop_spaces v <> "".
Proof.
  cbn [lookup DATACOMMONS_ALIASES].
  repeat (destruct (String.eqb key _);
          [intros [= <-]; vm_compute; discriminate |]).
  discriminate.
Qed.

(** Alias mapping neither creates nor removes a blank label. *)
Lemma alias_blank (s : string) :
  drop_spaces (apply_datacommon_alias s) = "" <-> drop_spaces s = "".
Proof.
  unfold apply_datacommon_alias.
  destruct (lookup (delete_all " " (strip s)) DATACOMMONS_ALIASES) as [v |] eqn:E;
    [| reflexivity].
  split; intros H.
  - exfalso. exact (alias_value_not_blank _ _ E H).
  - rewrite (blank_strip s H) in E. discriminate E.
Qed.

Lemma drop_spaces_idempotent (s : string) :
  drop_spaces (drop_spaces s) = drop_spaces s.
Proof.
  unfold drop_spaces. induction s as [| c s IH]; [reflexivity |].
  cbn [delete_all]. destruct (Ascii.eqb c " ") eqn:E; [exact IH |].
  cbn [delete_all]. now rewrite E, IH.
Qed.

Lemma alias_no_spaces_empty (s : string) :
  drop_spaces s = s -> (apply_datacommon_alias s = "" <-> s = "").
Proof.
  intros Hs. split; intros H.
  - rewrite <- Hs. apply alias_blank. now rewrite H.
  - subst s. reflexivity.
Qed.

(** Splitting at a one-character separator. *)
Lemma split_go_char (c d : ascii) (cur s : string) :
  split_go (String c "") 0 cur (String d s)
  = if Ascii.eqb d c
    then cur :: split_go (String c "") 0 "" s
    else split_go (String c "") 0 (cur ++ String d "") s.
Proof.
  cbn [split_go].
  change (prefix (String c "") (String d s))
    with (if ascii_dec c d then prefix "" s else false).
  destruct (ascii_dec c d) as [<- | Hne].
  - rewrite Ascii.eqb_refl. destruct s; reflexivity.
  - assert (E : Ascii.eqb d c = false) by (apply Ascii.eqb_neq; congruence).
    now rewrite E.
Qed.

Lemma last_item_cons {A : Type} (x : A) (l : list A) :
  l <> [] -> last_item (x :: l) = last_item l.
Proof.
  intros Hl. unfold last_item. cbn [rev].
  destruct (rev l) as [| a k] eqn:E; [| reflexivity].
  exfalso. apply Hl. rewrite <- (rev_involutive l), E. reflexivity.
Qed.

(** The last piece of a split is the end of the text. *)
Lemma last_piece_suffix (c : ascii) (s cur : string) :
  exists before word,
    last_item (split_go (String c "") 0 cur s) = Ok word
    /\ cur ++ s = before ++ word.
Proof.
  revert cur. induction s as [| d s IH]; intros cur.
  - exists "", cur. split; [reflexivity | apply append_nil_r].
  - rewrite split_go_char. destruct (Ascii.eqb d c) eqn:E.
    + apply Ascii.eqb_eq in E. subst d.
      destruct (IH "") as (b & w & Hl & Hs). cbn [append] in Hs.
      exists (cur ++ String c b), w. split.
      * rewrite last_item_cons by apply split_go_not_nil. exact Hl.
      * rewrite append_assoc. cbn [append]. now rewrite Hs.
    + destruct (IH (cur ++ String d "")) as (b & w & Hl & Hs).
      exists b, w. split; [exact Hl |]. rewrite <- Hs, append_assoc.
      reflexivity.
Qed.

Lemma length_append (a b : string) :
  String.length (a ++ b) = String.length a + String.length b.
Proof.
  induction a as [| c a IH]; [reflexivity |]. cbn. now rewrite IH.
Qed.

Lemma substring_prefix (a b : string) :
  substring 0 (String.length a) (a ++ b) = a.
Proof.
  induction a as [| c a IH]; [destruct b; reflexivity |].
  cbn. now rewrite IH.
Qed.

(** [s[:-len(word)]] is what precedes [word], unless [word] is empty. *)
Lemma drop_tail_suffix (before word : string) :
  word <> "" -> drop_tail (before ++ word) (String.length word) = before.
Proof.
  destruct word as [| c w]; [congruence |]. intros _.
  unfold drop_tail. cbn [String.length].
  change (S (String.length w)) with (String.length (String c w)).
  rewrite length_append, Nat.add_sub. apply substring_prefix.
Qed.

(** C4, as the program has it: the measured property is empty exactly when
    the label it is read from holds nothing but spaces.  That label is
    segment 0 on a composite row; on an individual-hazard row it is
    segment 1, or, when the aliased segment contains ["Score"] or
    ["Rating"] and its last word is not empty (it does not end with a
    space), what precedes that last word. *)
Theorem measured_property_empty_iff_blank_label :
  (forall (r : Row) (p : Properties),
      extract_properties_from_composite_row r = Ok p ->
      exists seg0,
        get_nth_dash_from_field_alias r 0 = Ok seg0
        /\ (measured_property p = "" <-> drop_spaces seg0 = ""))
  /\ (forall (r : Row) (p : Properties),
         extract_properties_from_ind_hazard_row r = Ok p ->
         exists seg1,
           get_nth_dash_from_field_alias r 1 = Ok seg1
           /\ if contains "Score" (apply_datacommon_alias seg1)
                 || contains "Rating" (apply_datacommon_alias seg1)
              then
                exists before word,
                  apply_datacommon_alias seg1 = before ++ word
                  /\ last_item (split " " (apply_datacommon_alias seg1))
                     = Ok word
                  /\ (word <> "" ->
                      (measured_property p = "" <-> drop_spaces before = ""))
              else measured_property p = "" <-> drop_spaces seg1 = "").
Proof.
  split.
  - intros r p H. unfold extract_properties_from_composite_row in H.
    bind_inv H as seg0 H0. bind_inv H as seg1 H1.
    exists seg0. split; [assumption |].
    match type of H with
    | context [normalize_unit_for_measured_property ?m ?u] =>
        pose proof (normalize_unit_vocabulary m u) as [Hfst _];
        destruct (normalize_unit_for_measured_property m u) as [mp' u']
    end.
    cbn [fst] in Hfst. subst mp'. injection H as <-. cbn [measured_property].
    apply alias_no_spaces_empty, drop_spaces_idempotent.
  - intros r p H. unfold extract_properties_from_ind_hazard_row in H.
    bind_inv H as seg0 H0. bind_inv H as seg1 H1. bind_inv H as mu Hmu.
    destruct mu as [mp u].
    pose proof (normalize_unit_vocabulary mp u) as [Hfst _].
    destruct (normalize_unit_for_measured_property mp u) as [mp' u'].
    cbn [fst] in Hfst. subst mp'. bind_inv H as it Hit. injection H as <-.
    cbn [measured_property]. exists seg1. split; [assumption |].
    destruct (contains "Score" (apply_datacommon_alias seg1)
              || contains "Rating" (apply_datacommon_alias seg1)).
    + bind_inv Hmu as word Hword. injection Hmu as <- _.
      destruct (last_piece_suffix " " (apply_datacommon_alias seg1) "")
        as (before & w & Hl & Hs).
      cbn [append] in Hs. fold (split " " (apply_datacommon_alias seg1)) in Hl.
      rewrite Hword in Hl. injection Hl as <-.
      exists before, word. split; [exact Hs | split; [exact Hword |]].
      intros Hne. rewrite alias_blank, Hs, (drop_tail_suffix before word Hne).
      reflexivity.
    + injection Hmu as <- _. apply alias_blank.
Qed.

Lemma measured_property_empty_iff_blank_label_witness :
  exists seg0,
    get_nth_dash_from_field_alias
      (sample_row "RISK_SCORE" "National Risk Index - Score" "National Risk Index")
      0
    = Ok seg0
    /\ ("femaNaturalHazardRiskIndex" = "" <-> drop_spaces seg0 = "").
Proof.
  apply (proj1 measured_property_empty_iff_blank_label
           (sample_row "RISK_SCORE" "National Risk Index - Score"
              "National Risk Index")
           {| hazard_type := None;
              measured_property := "femaNaturalHazardRiskIndex";
              measurement_qualifier := None;
              impacted_thing := None;
              unit := "FemaNationalRiskScore";
              is_composite := None;
              row := None |}).
  reflexivity.
Defined.

(** C4 as stated fails: the retained individual-hazard row
    ["Avalanche - Score"] has an empty measured property, because the
    whole of its second segment becomes the unit. *)
Lemma measured_property_empty_for_score_only :
  should_skip_component source_flags
    (sample_row "AVLN_RISKS" "Avalanche - Score" "Avalanche") = false
  /\ extract_all source_flags
       (drop_ignored_fields
          [sample_row "AVLN_RISKS" "Avalanche - Score" "Avalanche"])
     = Ok [ {| hazard_type := Some "AvalancheEvent";
               measured_property := "";
               measurement_qualifier := Some "";
               impacted_thing := Some "";
               unit := "FemaNationalRiskScore";
               is_composite := Some false;
               row := Some (sample_row "AVLN_RISKS" "Avalanche - Score"
                              "Avalanche") |} ].
Proof. split; reflexivity. Qed.

(** ** The display name (C9) *)

Lemma upper_not_space (c : ascii) : isupper c = true -> isspace c = false.
Proof.
  destruct c as [[] [] [] [] [] [] [] []]; vm_compute; intros H;
    first [reflexivity | discriminate H].
Qed.

Lemma strip_single (c : ascii) :
  strip (String c "") = if isspace c then "" else String c "".
Proof.
  unfold strip. cbn [lstrip]. destruct (isspace c) eqn:E; [reflexivity |].
  cbn [rstrip]. now rewrite E.
Qed.

Lemma join_empty_cons (x : string) (l : list string) :
  join "" (x :: l) = x ++ join "" l.
Proof.
  destruct l as [| y l]; [symmetry; apply append_nil_r | reflexivity].
Qed.

(** The comprehension of [add_spaces_before_capital_letters], joined. *)
Lemma spaced_characters (text : string) :
  join ""
    (map (fun char : ascii =>
            if isupper char then String " " (String char "")
            else strip (String char ""))
       (list_ascii_of_string text))
  = space_capitals (delete_whitespace text).
Proof.
  induction text as [| c s IH]; [reflexivity |].
  cbn [list_ascii_of_string map]. rewrite join_empty_cons, IH.
  cbn [delete_whitespace]. destruct (isupper c) eqn:Hu.
  - rewrite (upper_not_space c Hu). cbn [space_capitals]. now rewrite Hu.
  - rewrite strip_single. destruct (isspace c); [reflexivity |].
    cbn [space_capitals]. now rewrite Hu.
Qed.

Lemma no_blank_delete_whitespace (s : string) :
  no_blank (delete_whitespace s) = true.
Proof.
  induction s as [| c s IH]; [reflexivity |]. cbn [delete_whitespace].
  destruct (isspace c) eqn:E; [exact IH |]. cbn [no_blank]. now rewrite E.
Qed.

Lemma delete_whitespace_no_blank (s : string) :
  no_blank s = true -> delete_whitespace s = s.
Proof.
  induction s as [| c s IH]; [reflexivity |]. cbn [no_blank delete_whitespace].
  intros H. apply andb_true_iff in H. destruct H as [Hc Hs].
  apply negb_true_iff in Hc. now rewrite Hc, IH.
Qed.

Lemma rstrip_cons_fixed (c : ascii) (r : string) :
  rstrip r = r -> r <> "" \/ isspace c = false ->
  rstrip (String c r) = String c r.
Proof.
  intros Hr Hc. cbn [rstrip]. rewrite Hr. destruct r as [| d r].
  - destruct Hc as [Hc | Hc]; [congruence | now rewrite Hc].
  - reflexivity.
Qed.

Lemma rstrip_space_capitals (t : string) :
  no_blank t = true -> rstrip (space_capitals t) = space_capitals t.
Proof.
  induction t as [| c t IH]; [reflexivity |]. cbn [no_blank space_capitals].
  intros H. apply andb_true_iff in H. destruct H as [Hc Ht].
  apply negb_true_iff in Hc.
  assert (Hcons : rstrip (String c (space_capitals t))
                  = String c (space_capitals t)).
  { apply rstrip_cons_fixed; [exact (IH Ht) | now right]. }
  destruct (isupper c); [| exact Hcons].
  apply rstrip_cons_fixed; [exact Hcons | left; discriminate].
Qed.

Lemma strip_space_capitals (t : string) :
  no_blank t = true -> strip (space_capitals t) = space_internal_capitals t.
Proof.
  destruct t as [| c t]; [reflexivity |]. cbn [no_blank]. intros H.
  apply andb_true_iff in H. destruct H as [Hc Ht]. apply negb_true_iff in Hc.
  assert (Hcons : rstrip (String c (space_capitals t))
                  = String c (space_capitals t)).
  { apply rstrip_cons_fixed; [exact (rstrip_space_capitals t Ht) | now right]. }
  unfold strip. cbn [space_capitals space_internal_capitals].
  destruct (isupper c).
  - change (lstrip (String " " (String c (space_capitals t))))
      with (lstrip (String c (space_capitals t))).
    cbn [lstrip]. rewrite Hc. exact Hcons.
  - cbn [lstrip]. rewrite Hc. exact Hcons.
Qed.

(** What [add_spaces_before_capital_letters] computes. *)
Lemma add_spaces_before_capital_letters_spec (text : string) :
  add_spaces_before_capital_letters text
  = space_internal_capitals (delete_whitespace text).
Proof.
  unfold add_spaces_before_capital_letters. rewrite spaced_characters.
  apply strip_space_capitals, no_blank_delete_whitespace.
Qed.

(** Splitting at a one-character separator, continued. *)
Lemma split_go_char_app (c : ascii) (a b cur : string) :
  split_go (String c "") 0 cur (a ++ String c b)
  = (split_go (String c "") 0 cur a ++ split_go (String c "") 0 "" b)%list.
Proof.
  revert cur. induction a as [| d a IH]; intros cur.
  - cbn [append]. rewrite split_go_char, Ascii.eqb_refl. reflexivity.
  - cbn [append]. rewrite !split_go_char.
    destruct (Ascii.eqb d c); rewrite IH; reflexivity.
Qed.

Lemma join_split_go_char (c : ascii) (s cur : string) :
  join (String c "") (split_go (String c "") 0 cur s) = cur ++ s.
Proof.
  revert cur. induction s as [| d s IH]; intros cur.
  - cbn. now rewrite append_nil_r.
  - rewrite split_go_char. destruct (Ascii.eqb d c) eqn:E.
    + apply Ascii.eqb_eq in E. subst d.
      destruct (split_go (String c "") 0 "" s) as [| x l] eqn:Hs.
      * exfalso. exact (split_go_not_nil _ _ _ _ Hs).
      * rewrite join_cons_cons, <- Hs, IH. reflexivity.
    + rewrite IH, append_assoc. reflexivity.
Qed.

Lemma join_split_char (c : ascii) (s : string) :
  join (String c "") (split (String c "") s) = s.
Proof. unfold split. now rewrite join_split_go_char. Qed.

Lemma delete_whitespace_app (a b : string) :
  delete_whitespace (a ++ b) = delete_whitespace a ++ delete_whitespace b.
Proof.
  induction a as [| c a IH]; [reflexivity |]. cbn [append delete_whitespace].
  destruct (isspace c); rewrite IH; reflexivity.
Qed.

Lemma space_capitals_app (a b : string) :
  space_capitals (a ++ b) = space_capitals a ++ space_capitals b.
Proof.
  induction a as [| c a IH]; [reflexivity |]. cbn [append space_capitals].
  destruct (isupper c); rewrite IH; reflexivity.
Qed.

(** Spacing a hazard type and dropping its last word takes the ["Event"]
    suffix away. *)
Lemma hazard_type_no_event (x : string) :
  join " "
    (removelast (split " " (add_spaces_before_capital_letters (x ++ "Event"))))
  = space_internal_capitals (delete_whitespace x).
Proof.
  rewrite add_spaces_before_capital_letters_spec, delete_whitespace_app.
  change (delete_whitespace "Event") with "Event".
  destruct (delete_whitespace x) as [| c t]; [reflexivity |].
  cbn [append space_internal_capitals]. rewrite space_capitals_app.
  change (space_capitals "Event") with (String " " "Event").
  change (String c (space_capitals t ++ String " " "Event"))
    with (String c (space_capitals t) ++ String " " "Event").
  unfold split. rewrite split_go_char_app.
  change (split_go " " 0 "" "Event") with ["Event"].
  rewrite removelast_last. apply join_split_go_char.
Qed.

(** C9, as the program has it: the display name is the fixed phrase of
    the annualized-loss or risk-index property, or else
    ["FEMA {rest} to Natural Hazard Impact"] where [rest] is the property
    token without its blank characters, a space before every internal
    capital letter, less its first word; a non-composite name goes on
    with [": "] and the hazard type without its ["Event"] suffix, spaced
    the same way.  On tokens without blank characters this is the name
    of the specification. *)
Theorem display_name_of_properties :
  (forall p : Properties,
      format_human_readable_name_from_properties p true
      = Ok (display_name (measured_property p) None))
  /\ (forall (p : Properties) (x : string),
         hazard_type p = Some (x ++ "Event") ->
         format_human_readable_name_from_properties p false
         = Ok (display_name (measured_property p) (Some x)))
  /\ (forall m : string,
         no_blank m = true ->
         display_name m None = display_name_as_specified m None)
  /\ (forall m x : string,
         no_blank m = true -> no_blank x = true ->
         display_name m (Some x) = display_name_as_specified m (Some x)).
Proof.
  repeat split.
  - intros p. unfold format_human_readable_name_from_properties, display_name.
    cbn [negb]. rewrite add_spaces_before_capital_letters_spec. reflexivity.
  - intros p x Hx.
    unfold format_human_readable_name_from_properties, display_name.
    cbn [negb]. rewrite Hx. cbn [get bind].
    rewrite hazard_type_no_event, add_spaces_before_capital_letters_spec.
    reflexivity.
  - intros m Hm. unfold display_name, display_name_as_specified.
    now rewrite (delete_whitespace_no_blank m Hm).
  - intros m x Hm Hx. unfold display_name, display_name_as_specified.
    now rewrite (delete_whitespace_no_blank m Hm),
      (delete_whitespace_no_blank x Hx).
Qed.

Lemma display_name_of_properties_witness :
  format_human_readable_name_from_properties
    {| hazard_type := Some "CoastalFloodEvent";
       measured_property := "femaSocialVulnerability";
       measurement_qualifier := Some "";
       impacted_thing := Some "";
       unit := "FemaNationalRiskScore";
       is_composite := Some false;
       row := None |}
    false
  = Ok "FEMA Social Vulnerability to Natural Hazard Impact: Coastal Flood".
Proof.
  apply (proj1 (proj2 display_name_of_properties)
           {| hazard_type := Some "CoastalFloodEvent";
              measured_property := "femaSocialVulnerability";
              measurement_qualifier := Some "";
              impacted_thing := Some "";
              unit := "FemaNationalRiskScore";
              is_composite := Some false;
              row := None |}
           "CoastalFlood").
  reflexivity.
Defined.

(** C9 as stated fails: a tab inside the property token is dropped by the
    program, where spacing the token as it stands would keep it. *)
Lemma display_name_drops_tab :
  exists p : Properties,
    extract_properties_from_row
      (sample_row "SOVI_SCORE" ("Fema Social" ++ tab ++ "Vulnerability - Score")
         "Social Vulnerability")
    = Ok p
    /\ measured_property p = "FemaSocial" ++ tab ++ "Vulnerability"
    /\ format_human_readable_name_from_properties p true
       = Ok "FEMA Social Vulnerability to Natural Hazard Impact"
    /\ display_name_as_specified (measured_property p) None
       = "FEMA Social" ++ tab ++ " Vulnerability to Natural Hazard Impact"
    /\ format_human_readable_name_from_properties p true
       <> Ok (display_name_as_specified (measured_property p) None).
Proof.
  eexists. split; [vm_compute; reflexivity |].
  repeat split; try (vm_compute; reflexivity).
  vm_compute. discriminate.
Qed.

(** * Further properties of the program *)

(** ** What the individual-hazard extractor returns *)

(** The record of [extract_properties_from_ind_hazard_row], field by
    field, from the values its steps compute. *)
Lemma extract_ind_hazard_fields (r : Row) (p : Properties) :
  extract_properties_from_ind_hazard_row r = Ok p ->
  exists seg0 seg1 mp u it,
    get_nth_dash_from_field_alias r 0 = Ok seg0
    /\ get_nth_dash_from_field_alias r 1 = Ok seg1
    /\ hazard_type p
       = Some (if String.eqb (drop_spaces seg0 ++ "Event") "CoastalFloodingEvent"
               then "CoastalFloodEvent" else drop_spaces seg0 ++ "Event")
    /\ measured_property p = drop_spaces mp
    /\ measurement_qualifier p
       = Some (if String.eqb mp "expectedLoss" then "Annual" else "")
    /\ unit p = snd (normalize_unit_for_measured_property mp u)
    /\ impacted_thing p
       = Some (if contains "Population" it then "Person" else it)
    /\ (it = "" \/ exists seg2,
           get_nth_dash_from_field_alias r 2 = Ok seg2 /\ it = drop_spaces seg2)
    /\ is_composite p = None /\ row p = None.
Proof.
  intros H. unfold extract_properties_from_ind_hazard_row in H.
  bind_inv H as seg0 H0. bind_inv H as seg1 H1. bind_inv H as mu Hmu.
  destruct mu as [mp u].
  pose proof (normalize_unit_vocabulary mp u) as [Hfst _].
  destruct (normalize_unit_for_measured_property mp u) as [mp' u'] eqn:Hn.
  cbn [fst] in Hfst. subst mp'. bind_inv H as it Hit. injection H as <-.
  exists seg0, seg1, mp, u, it. rewrite Hn. cbn.
  repeat split; try assumption.
  destruct (1 <? count_char "-" (Field_Alias r))%nat.
  - bind_inv Hit as seg2 H2. injection Hit as <-.
    destruct (String.eqb (drop_spaces seg2) "Total");
      [now left | right; now exists seg2].
  - injection Hit as <-. now left.
Qed.

Lemma drop_spaces_app (a b : string) :
  drop_spaces (a ++ b) = drop_spaces a ++ drop_spaces b.
Proof.
  unfold drop_spaces. induction a as [| c a IH]; [reflexivity |].
  cbn [append delete_all]. destruct (Ascii.eqb c " "); rewrite IH; reflexivity.
Qed.

Lemma alias_value_no_space (key v : string) :
  lookup key DATACOMMONS_ALIASES = Some v -> drop_spaces v = v.
Proof.
  cbn [lookup DATACOMMONS_ALIASES].
  repeat (destruct (String.eqb key _); [intros [= <-]; reflexivity |]).
  discriminate.
Qed.

Lemma alias_no_space (s : string) :
  drop_spaces s = s ->
  drop_spaces (apply_datacommon_alias s) = apply_datacommon_alias s.
Proof.
  intros Hs. unfold apply_datacommon_alias.
  destruct (lookup (delete_all " " (strip s)) DATACOMMONS_ALIASES) as [v |] eqn:E;
    [exact (alias_value_no_space _ _ E) | exact Hs].
Qed.

(** X1: the hazard type of an individual-hazard row ends with ["Event"],
    and is never the spelling ["CoastalFloodingEvent"]. *)
Theorem hazard_type_ends_with_event (r : Row) (p : Properties) :
  extract_properties_from_ind_hazard_row r = Ok p ->
  (exists x, hazard_type p = Some (x ++ "Event"))
  /\ hazard_type p <> Some "CoastalFloodingEvent".
Proof.
  intros H.
  destruct (extract_ind_hazard_fields r p H)
    as (seg0 & seg1 & mp & u & it & _ & _ & Hh & _).
  rewrite Hh.
  destruct (String.eqb (drop_spaces seg0 ++ "Event") "CoastalFloodingEvent")
    eqn:E.
  - split; [now exists "CoastalFlood" | discriminate].
  - split; [now exists (drop_spaces seg0) |].
    apply String.eqb_neq in E. congruence.
Qed.

Lemma hazard_type_ends_with_event_witness :
  (exists x, Some "CoastalFloodEvent" = Some (x ++ "Event"))
  /\ Some "CoastalFloodEvent" <> Some "CoastalFloodingEvent".
Proof.
  apply (hazard_type_ends_with_event
           (sample_row "CFLD_EALS" "Coastal Flooding - Expected Annual Loss Score"
              "Coastal Flooding")
           {| hazard_type := Some "CoastalFloodEvent";
              measured_property := "expectedLoss";
              measurement_qualifier := Some "Annual";
              impacted_thing := Some "";
              unit := "FemaNationalRiskScore";
              is_composite := None;
              row := None |}).
  reflexivity.
Defined.

(** X2: no extracted field holds a space character: the measured
    property, the hazard type and the impacted thing of every row are
    left unchanged by [drop_spaces]. *)
Theorem extracted_fields_without_spaces (r : Row) (p : Properties) :
  extract_properties_from_row r = Ok p ->
  drop_spaces (measured_property p) = measured_property p
  /\ (forall h, hazard_type p = Some h -> drop_spaces h = h)
  /\ (forall it, impacted_thing p = Some it -> drop_spaces it = it).
Proof.
  intros H. destruct (is_composite_row r) eqn:Hlayer.
  - destruct (extract_row_composite r p Hlayer H) as (q & Hq & ->).
    cbn [with_row measured_property hazard_type impacted_thing].
    unfold extract_properties_from_composite_row in Hq.
    bind_inv Hq as seg0 H0. bind_inv Hq as seg1 H1.
    match type of Hq with
    | context [normalize_unit_for_measured_property ?m ?u] =>
        pose proof (normalize_unit_vocabulary m u) as [Hfst _];
        destruct (normalize_unit_for_measured_property m u) as [mp' u']
    end.
    cbn [fst] in Hfst. subst mp'. injection Hq as <-. cbn.
    split; [| split; discriminate].
    apply alias_no_space, drop_spaces_idempotent.
  - destruct (extract_row_not_composite r p Hlayer H) as (q & Hq & ->).
    cbn [with_row measured_property hazard_type impacted_thing].
    destruct (extract_ind_hazard_fields r q Hq)
      as (seg0 & seg1 & mp & u & it & _ & _ & Hh & Hmp & _ & _ & Hit & Hor & _).
    rewrite Hh, Hmp, Hit. split; [apply drop_spaces_idempotent | split].
    + intros h [= <-].
      destruct (String.eqb (drop_spaces seg0 ++ "Event") "CoastalFloodingEvent");
        [reflexivity |].
      now rewrite drop_spaces_app, drop_spaces_idempotent.
    + intros x [= <-]. destruct (contains "Population" it); [reflexivity |].
      destruct Hor as [-> | (seg2 & _ & ->)];
        [reflexivity | apply drop_spaces_idempotent].
Qed.

Lemma extracted_fields_without_spaces_witness :
  drop_spaces "HistoricLossRatio" = "HistoricLossRatio"
  /\ (forall h, Some "CoastalFloodEvent" = Some h -> drop_spaces h = h)
  /\ (forall it, Some "Person" = Some it -> drop_spaces it = it).
Proof.
  apply (extracted_fields_without_spaces
           (sample_row "CFLD_HLRP"
              "Coastal Flooding - Historic Loss Ratio - Population"
              "Coastal Flooding")
           {| hazard_type := Some "CoastalFloodEvent";
              measured_property := "HistoricLossRatio";
              measurement_qualifier := Some "";
              impacted_thing := Some "Person";
              unit := "";
              is_composite := Some false;
              row := Some (sample_row "CFLD_HLRP"
                             "Coastal Flooding - Historic Loss Ratio - Population"
                             "Coastal Flooding") |}).
  reflexivity.
Defined.

(** X3: the measurement qualifier of an individual-hazard row is
    ["Annual"] or empty, and ["Annual"] comes only with the measured
    property ["expectedLoss"]. *)
Theorem measurement_qualifier_annual (r : Row) (p : Properties) :
  extract_properties_from_ind_hazard_row r = Ok p ->
  (measurement_qualifier p = Some "Annual"
   \/ measurement_qualifier p = Some "")
  /\ (measurement_qualifier p = Some "Annual" ->
      measured_property p = "expectedLoss").
Proof.
  intros H.
  destruct (extract_ind_hazard_fields r p H)
    as (seg0 & seg1 & mp & u & it & _ & _ & _ & Hmp & Hq & _).
  rewrite Hq, Hmp. destruct (String.eqb mp "expectedLoss") eqn:E.
  - apply String.eqb_eq in E. subst mp. split; [now left | reflexivity].
  - split; [now right | discriminate].
Qed.

Lemma measurement_qualifier_annual_witness :
  (Some "Annual" = Some "Annual" \/ Some "Annual" = Some "")
  /\ (Some "Annual" = Some "Annual" -> "expectedLoss" = "expectedLoss").
Proof.
  apply (measurement_qualifier_annual
           (sample_row "AVLN_EALS" "Avalanche - Expected Annual Loss Score"
              "Avalanche")
           {| hazard_type := Some "AvalancheEvent";
              measured_property := "expectedLoss";
              measurement_qualifier := Some "Annual";
              impacted_thing := Some "";
              unit := "FemaNationalRiskScore";
              is_composite := None;
              row := None |}).
  reflexivity.
Defined.

(** ** When extraction and formatting raise *)

From Stdlib Require Import Lia.

Lemma index_in_range {A : Type} (l : list A) (i : nat) :
  i < List.length l -> exists a, index l i = Ok a.
Proof.
  intros H. unfold index. destruct (nth_error l i) as [a |] eqn:E.
  - now exists a.
  - apply nth_error_None in E. lia.
Qed.

Lemma index_out_of_range {A : Type} (l : list A) (i : nat) :
  List.length l <= i -> index l i = Raise IndexError.
Proof.
  intros H. unfold index. apply nth_error_None in H. now rewrite H.
Qed.

Lemma last_item_of_split (sep s : string) :
  exists word, last_item (split sep s) = Ok word.
Proof.
  unfold last_item, split.
  destruct (rev (split_go sep 0 "" s)) as [| a l] eqn:E.
  - exfalso. apply (split_go_not_nil sep 0 "" s).
    rewrite <- (rev_involutive (split_go sep 0 "" s)), E. reflexivity.
  - now exists a.
Qed.

(** X4: the composite extractor returns exactly when the alias has two
    segments; the individual-hazard extractor needs two, and a third one
    as soon as the alias holds more than one dash character, separator
    or not.  Otherwise each raises [IndexError]. *)
Theorem extraction_returns_iff_segments (r : Row) :
  let n := List.length (split " - " (Field_Alias r)) in
  let dashes := count_char "-" (Field_Alias r) in
  (2 <= n -> exists p, extract_properties_from_composite_row r = Ok p)
  /\ (n < 2 -> extract_properties_from_composite_row r = Raise IndexError)
  /\ (2 <= n -> (1 < dashes -> 3 <= n) ->
      exists p, extract_properties_from_ind_hazard_row r = Ok p)
  /\ (n < 2 \/ (n < 3 /\ 1 < dashes) ->
      extract_properties_from_ind_hazard_row r = Raise IndexError).
Proof.
  intros n dashes.
  assert (H0 : exists seg0, get_nth_dash_from_field_alias r 0 = Ok seg0).
  { apply index_in_range. unfold split.
    destruct (split_go " - " 0 "" (Field_Alias r)) eqn:E; [| cbn; lia].
    exfalso. exact (split_go_not_nil _ _ _ _ E). }
  destruct H0 as (seg0 & H0).
  assert (Hscore : forall seg1,
             exists mu,
               (if contains "Score" (apply_datacommon_alias seg1)
                   || contains "Rating" (apply_datacommon_alias seg1)
                then
                  unit <- last_item (split " " (apply_datacommon_alias seg1)) ;;
                  Ok (apply_datacommon_alias
                        (drop_tail (apply_datacommon_alias seg1)
                           (String.length unit)),
                      apply_datacommon_alias unit)
                else Ok (apply_datacommon_alias seg1, "")) = Ok mu).
  { intros seg1.
    destruct (contains "Score" (apply_datacommon_alias seg1)
              || contains "Rating" (apply_datacommon_alias seg1)).
    - destruct (last_item_of_split " " (apply_datacommon_alias seg1))
        as (word & ->).
      eexists. reflexivity.
    - eexists. reflexivity. }
  repeat split.
  - intros Hn. destruct (index_in_range (split " - " (Field_Alias r)) 1)
      as (seg1 & H1); [fold n; lia |].
    unfold extract_properties_from_composite_row.
    fold (get_nth_dash_from_field_alias r 1) in H1. rewrite H0, H1.
    cbn [bind].
    destruct (normalize_unit_for_measured_property _ _). eexists. reflexivity.
  - intros Hn. unfold extract_properties_from_composite_row.
    rewrite H0. cbn [bind]. unfold get_nth_dash_from_field_alias.
    rewrite index_out_of_range by (fold n; lia). reflexivity.
  - intros Hn Hthird.
    destruct (index_in_range (split " - " (Field_Alias r)) 1)
      as (seg1 & H1); [fold n; lia |].
    fold (get_nth_dash_from_field_alias r 1) in H1.
    unfold extract_properties_from_ind_hazard_row. rewrite H0, H1.
    cbn [bind]. destruct (Hscore seg1) as ([mp u] & ->). cbn [bind].
    destruct (normalize_unit_for_measured_property mp u).
    fold dashes. destruct (1 <? dashes)%nat eqn:Hd.
    + apply Nat.ltb_lt in Hd.
      destruct (index_in_range (split " - " (Field_Alias r)) 2)
        as (seg2 & H2); [fold n; lia |].
      fold (get_nth_dash_from_field_alias r 2) in H2. rewrite H2.
      eexists. reflexivity.
    + eexists. reflexivity.
  - intros Hn. unfold extract_properties_from_ind_hazard_row.
    rewrite H0. cbn [bind].
    destruct (Nat.lt_ge_cases n 2) as [Hlt | Hge].
    + unfold get_nth_dash_from_field_alias at 1.
      rewrite index_out_of_range by (fold n; lia). reflexivity.
    + destruct Hn as [Hn | [Hn Hd]]; [lia |].
      destruct (index_in_range (split " - " (Field_Alias r)) 1)
        as (seg1 & H1); [fold n; lia |].
      fold (get_nth_dash_from_field_alias r 1) in H1. rewrite H1.
      cbn [bind]. destruct (Hscore seg1) as ([mp u] & ->). cbn [bind].
      destruct (normalize_unit_for_measured_property mp u).
      fold dashes. apply Nat.ltb_lt in Hd. rewrite Hd.
      unfold get_nth_dash_from_field_alias.
      rewrite index_out_of_range by (fold n; lia). reflexivity.
Qed.

Lemma extraction_returns_iff_segments_witness :
  extract_properties_from_ind_hazard_row
    (sample_row "WNTW_EALS" "Winter-Weather - Expected-Loss" "Winter Weather")
  = Raise IndexError.
Proof.
  apply (extraction_returns_iff_segments
           (sample_row "WNTW_EALS" "Winter-Weather - Expected-Loss"
              "Winter Weather")).
  right. vm_compute. lia.
Defined.

(** X5: the composite formatter raises exactly when the measured property
    is empty, and then it is [IndexError]: [capitalize_first] reads the
    first character. *)
Theorem format_composite_raises_iff_empty (p : Properties) :
  (measured_property p = "" ->
   format_composite_field_properties_to_schema p = Raise IndexError)
  /\ (measured_property p <> "" ->
      exists schema dcid,
        format_composite_field_properties_to_schema p = Ok (schema, dcid)).
Proof.
  unfold format_composite_field_properties_to_schema,
    format_human_readable_name_from_properties.
  split.
  - intros ->. reflexivity.
  - intros Hne. destruct (measured_property p) as [| c s]; [congruence |].
    cbn [capitalize_first bind negb]. do 2 eexists. reflexivity.
Qed.

Lemma format_composite_raises_iff_empty_witness :
  format_composite_field_properties_to_schema
    {| hazard_type := None;
       measured_property := "";
       measurement_qualifier := None;
       impacted_thing := None;
       unit := "FemaNationalRiskScore";
       is_composite := Some true;
       row := None |}
  = Raise IndexError.
Proof.
  apply (proj1 (format_composite_raises_iff_empty
                  {| hazard_type := None;
                     measured_property := "";
                     measurement_qualifier := None;
                     impacted_thing := None;
                     unit := "FemaNationalRiskScore";
                     is_composite := Some true;
                     row := None |})).
  reflexivity.
Defined.

Lemma capitalize_all_nonempty (l : list string) :
  exists names, capitalize_all (filter nonempty l) = Ok names.
Proof.
  induction l as [| x l (names & IH)]; [now exists [] |].
  destruct x as [| c x]; cbn [filter nonempty]; [now exists names |].
  cbn [capitalize_all capitalize_first bind]. rewrite IH. cbn [bind].
  eexists. reflexivity.
Qed.

(** X6: the individual-hazard formatter returns for every dictionary that
    has the three keys of the individual-hazard extractor, whatever they
    hold, empty strings included; without one of them it raises
    [KeyError]. *)
Theorem format_ind_hazard_returns_iff_keys (p : Properties) :
  ((exists h q it,
       hazard_type p = Some h
       /\ measurement_qualifier p = Some q
       /\ impacted_thing p = Some it) ->
   exists schema dcid,
     format_ind_hazard_field_properties_to_schema p = Ok (schema, dcid))
  /\ (hazard_type p = None
      \/ measurement_qualifier p = None
      \/ impacted_thing p = None ->
      format_ind_hazard_field_properties_to_schema p = Raise KeyError).
Proof.
  unfold format_ind_hazard_field_properties_to_schema,
    format_human_readable_name_from_properties.
  split.
  - intros (h & q & it & -> & -> & ->). cbn [get bind negb].
    destruct (capitalize_all_nonempty
                [q; measured_property p; "NaturalHazardImpact"; h; it])
      as (names & ->).
    cbn [bind]. do 2 eexists. reflexivity.
  - intros H.
    destruct (hazard_type p) as [h |]; [| reflexivity].
    destruct (measurement_qualifier p) as [q |]; [| reflexivity].
    destruct (impacted_thing p) as [it |]; [| reflexivity].
    destruct H as [H | [H | H]]; discriminate H.
Qed.

Lemma format_ind_hazard_returns_iff_keys_witness :
  exists schema dcid,
    format_ind_hazard_field_properties_to_schema
      {| hazard_type := Some "AvalancheEvent";
         measured_property := "";
         measurement_qualifier := Some "";
         impacted_thing := Some "";
         unit := "FemaNationalRiskScore";
         is_composite := Some false;
         row := None |}
    = Ok (schema, dcid).
Proof.
  apply (proj1 (format_ind_hazard_returns_iff_keys
                  {| hazard_type := Some "AvalancheEvent";
                     measured_property := "";
                     measurement_qualifier := Some "";
                     impacted_thing := Some "";
                     unit := "FemaNationalRiskScore";
                     is_composite := Some false;
                     row := None |})).
  exists "AvalancheEvent", "", "". repeat split; reflexivity.
Defined.

(** ** The keys of the extracted dictionaries *)

Lemma only_index_error_Ok {A : Type} (a : A) : raises_only_index_error (Ok a).
Proof. intros e H. discriminate H. Qed.

Lemma only_index_error_bind {A B : Type} (m : result A) (k : A -> result B) :
  raises_only_index_error m ->
  (forall a, m = Ok a -> raises_only_index_error (k a)) ->
  raises_only_index_error (bind m k).
Proof.
  intros Hm Hk e H. destruct m as [a | e']; cbn in H.
  - exact (Hk a eq_refl e H).
  - injection H as <-. exact (Hm e' eq_refl).
Qed.

Lemma only_index_error_index {A : Type} (l : list A) (i : nat) :
  raises_only_index_error (index l i).
Proof.
  intros e. unfold index. destruct (nth_error l i); [discriminate | congruence].
Qed.

Lemma only_index_error_last_item {A : Type} (l : list A) :
  raises_only_index_error (last_item l).
Proof.
  intros e. unfold last_item. destruct (rev l); [congruence | discriminate].
Qed.

Lemma only_index_error_capitalize_first (s : string) :
  raises_only_index_error (capitalize_first s).
Proof. intros e. destruct s; cbn; [congruence | discriminate]. Qed.

Lemma only_index_error_if {A : Type} (b : bool) (m1 m2 : result A) :
  raises_only_index_error m1 -> raises_only_index_error m2 ->
  raises_only_index_error (if b then m1 else m2).
Proof. destruct b; auto. Qed.

Create HintDb index_error.

#[local] Hint Resolve only_index_error_Ok only_index_error_index
  only_index_error_last_item only_index_error_capitalize_first
  only_index_error_if : index_error.

Lemma only_index_error_composite_row (r : Row) :
  raises_only_index_error (extract_properties_from_composite_row r).
Proof.
  unfold extract_properties_from_composite_row, get_nth_dash_from_field_alias.
  apply only_index_error_bind; [auto with index_error | intros seg0 _].
  apply only_index_error_bind; [auto with index_error | intros seg1 _].
  destruct (normalize_unit_for_measured_property _ _). auto with index_error.
Qed.

Lemma only_index_error_ind_hazard_row (r : Row) :
  raises_only_index_error (extract_properties_from_ind_hazard_row r).
Proof.
  unfold extract_properties_from_ind_hazard_row, get_nth_dash_from_field_alias.
  apply only_index_error_bind; [auto with index_error | intros seg0 _].
  apply only_index_error_bind; [auto with index_error | intros seg1 _].
  apply only_index_error_bind.
  - apply only_index_error_if; [| auto with index_error].
    apply only_index_error_bind; auto with index_error.
  - intros [mp u] _. destruct (normalize_unit_for_measured_property mp u).
    apply only_index_error_bind; [| auto with index_error].
    apply only_index_error_if; [| auto with index_error].
    apply only_index_error_bind; auto with index_error.
Qed.

Lemma only_index_error_row (r : Row) :
  raises_only_index_error (extract_properties_from_row r).
Proof.
  unfold extract_properties_from_row. apply only_index_error_if.
  - apply only_index_error_bind;
      [apply only_index_error_composite_row | auto with index_error].
  - apply only_index_error_bind;
      [apply only_index_error_ind_hazard_row | auto with index_error].
Qed.

(** X7: the dictionary of a row carries [is_composite], as the classifier
    decides, and the row itself; the keys [hazard_type],
    [measurement_qualifier] and [impacted_thing] are there exactly when
    the row is not composite. *)
Theorem extracted_keys (r : Row) (p : Properties) :
  extract_properties_from_row r = Ok p ->
  is_composite p = Some (is_composite_row r)
  /\ row p = Some r
  /\ (is_composite_row r = true ->
      hazard_type p = None /\ measurement_qualifier p = None
      /\ impacted_thing p = None)
  /\ (is_composite_row r = false ->
      exists h q it,
        hazard_type p = Some h /\ measurement_qualifier p = Some q
        /\ impacted_thing p = Some it).
Proof.
  intros H. destruct (is_composite_row r) eqn:Hlayer.
  - destruct (extract_row_composite r p Hlayer H) as (q & Hq & ->).
    unfold extract_properties_from_composite_row in Hq.
    bind_inv Hq as seg0 H0. bind_inv Hq as seg1 H1.
    destruct (normalize_unit_for_measured_property _ _) in Hq.
    injection Hq as <-. cbn. repeat split; discriminate.
  - destruct (extract_row_not_composite r p Hlayer H) as (q & Hq & ->).
    destruct (extract_ind_hazard_fields r q Hq)
      as (seg0 & seg1 & mp & u & it & _ & _ & Hh & _ & Hmq & _ & Hit & _).
    cbn [with_row is_composite row hazard_type measurement_qualifier
           impacted_thing].
    repeat split; try discriminate.
    intros _. rewrite Hh, Hmq, Hit. do 3 eexists. repeat split.
Qed.

Lemma extracted_keys_witness :
  Some true = Some (is_composite_row
                      (sample_row "RISK_SCORE" "National Risk Index - Score"
                         "National Risk Index")).
Proof.
  apply (extracted_keys
           (sample_row "RISK_SCORE" "National Risk Index - Score"
              "National Risk Index")
           {| hazard_type := None;
              measured_property := "femaNaturalHazardRiskIndex";
              measurement_qualifier := None;
              impacted_thing := None;
              unit := "FemaNationalRiskScore";
              is_composite := Some true;
              row := Some (sample_row "RISK_SCORE" "National Risk Index - Score"
                             "National Risk Index") |}).
  reflexivity.
Defined.

Lemma extracted_keys_present (r : Row) (p : Properties) :
  extract_properties_from_row r = Ok p -> keys_present p.
Proof.
  intros H. exists (is_composite_row r), r.
  destruct (is_composite_row r) eqn:Hlayer.
  - destruct (extract_row_composite r p Hlayer H) as (q & Hq & ->).
    cbn. repeat split. discriminate.
  - destruct (extract_row_not_composite r p Hlayer H) as (q & Hq & ->).
    destruct (extract_ind_hazard_fields r q Hq)
      as (seg0 & seg1 & mp & u & it & _ & _ & Hh & _ & Hmq & _ & Hit & _).
    cbn [with_row is_composite row hazard_type measurement_qualifier
           impacted_thing].
    repeat split. intros _. rewrite Hh, Hmq, Hit. do 3 eexists. repeat split.
Qed.

Lemma extract_all_keys_present (flags : Flags) (dd : list Row) :
  raises_only_index_error (extract_all flags dd)
  /\ (forall ps, extract_all flags dd = Ok ps -> Forall keys_present ps).
Proof.
  induction dd as [| r dd [IHe IHk]].
  - split; [apply only_index_error_Ok |]. intros ps [= <-]. constructor.
  - cbn [extract_all]. destruct (should_skip_component flags r);
      [now split |].
    split.
    + apply only_index_error_bind; [apply only_index_error_row | intros p _].
      apply only_index_error_bind; [exact IHe | intros; apply only_index_error_Ok].
    + intros ps H. bind_inv H as p Hp. bind_inv H as rest Hrest.
      injection H as <-. constructor;
        [exact (extracted_keys_present r p Hp) | exact (IHk rest Hrest)].
Qed.

Lemma only_index_error_schema_and_tmcf (p : Properties) (i : nat) :
  keys_present p ->
  raises_only_index_error (schema_and_tmcf_from_properties p i).
Proof.
  intros (composite & r & Hc & Hr & Hkeys).
  unfold schema_and_tmcf_from_properties. rewrite Hc, Hr. cbn [get bind].
  apply only_index_error_bind.
  - destruct composite.
    + unfold format_composite_field_properties_to_schema,
        format_human_readable_name_from_properties.
      cbn [negb].
      apply only_index_error_bind; [apply only_index_error_capitalize_first |].
      intros cap _. cbn [bind]. apply only_index_error_Ok.
    + destruct (Hkeys eq_refl) as (h & q & it & Hh & Hq & Hit).
      unfold format_ind_hazard_field_properties_to_schema,
        format_human_readable_name_from_properties.
      rewrite Hh, Hq, Hit. cbn [get bind negb].
      destruct (capitalize_all_nonempty
                  [q; measured_property p; "NaturalHazardImpact"; h; it])
        as (names & ->).
      cbn [bind]. apply only_index_error_Ok.
  - intros [schema dcid] _. apply only_index_error_Ok.
Qed.

Lemma only_index_error_format_all (ps : list Properties) (i : nat) :
  Forall keys_present ps -> raises_only_index_error (format_all i ps).
Proof.
  intros H. revert i. induction H as [| p ps Hp Hps IH]; intros i.
  - apply only_index_error_Ok.
  - cbn [format_all].
    apply only_index_error_bind;
      [exact (only_index_error_schema_and_tmcf p i Hp) | intros [s t] _].
    destruct Hp as (composite & r & _ & Hr & _). rewrite Hr. cbn [get bind].
    apply only_index_error_bind; [apply IH | intros [[ss ts] cs] _].
    apply only_index_error_Ok.
Qed.

(** X8: on a table whose cells are strings the generation raises no
    [KeyError]: the only exception of the two loops is the [IndexError]
    of a missing segment or of an empty composite property. *)
Theorem generation_raises_only_index_error
  (flags : Flags) (dd : list Row) (e : exn) :
  generate_sequences flags dd = Raise e -> e = IndexError.
Proof.
  revert e. change (raises_only_index_error (generate_sequences flags dd)).
  unfold generate_sequences.
  destruct (extract_all_keys_present flags (drop_ignored_fields dd))
    as [He Hk].
  apply only_index_error_bind; [exact He | intros ps Hps].
  apply only_index_error_bind;
    [exact (only_index_error_format_all ps 0 (Hk ps Hps)) |].
  intros [[s t] c] _. apply only_index_error_Ok.
Qed.

Lemma generation_raises_only_index_error_witness :
  IndexError = IndexError.
Proof.
  apply (generation_raises_only_index_error source_flags
           [sample_row "SOVI_SCORE" "  - Score" "Social Vulnerability"]
           IndexError).
  reflexivity.
Defined.

(** ** The rows that reach the output *)

Lemma extract_all_retained (flags : Flags) (dd : list Row) :
  extract_all flags (drop_ignored_fields dd)
  = extract_all flags (filter (retained flags) dd).
Proof.
  unfold drop_ignored_fields, retained.
  induction dd as [| r dd IH]; [reflexivity |]. cbn [filter].
  destruct (mem (Field_Name r) IGNORED_FIELDS); cbn [negb andb]; [exact IH |].
  destruct (should_skip_component flags r) eqn:Hskip; cbn [negb extract_all].
  - rewrite Hskip. exact IH.
  - rewrite Hskip, IH. reflexivity.
Qed.

Lemma generate_sequences_retained (flags : Flags) (dd : list Row) :
  generate_sequences flags dd
  = (extracted_properties <- extract_all flags (filter (retained flags) dd) ;;
     '(schemas, tmcfs, csv_columns) <- format_all 0 extracted_properties ;;
     Ok {| schemas := prune_list_dupes String.eqb schemas;
           tmcfs := prune_list_dupes String.eqb tmcfs;
           csv_columns := prune_list_dupes String.eqb csv_columns |}).
Proof. unfold generate_sequences. now rewrite extract_all_retained. Qed.

(** X9: an ignored or skipped row leaves no trace: with or without it the
    generation gives the same result, ordinals included. *)
Theorem unretained_row_leaves_no_trace
  (flags : Flags) (dd1 dd2 : list Row) (r : Row) :
  retained flags r = false ->
  generate_sequences flags (dd1 ++ r :: dd2)%list
  = generate_sequences flags (dd1 ++ dd2)%list.
Proof.
  intros H. rewrite !generate_sequences_retained, !filter_app.
  cbn [filter]. now rewrite H.
Qed.

Lemma unretained_row_leaves_no_trace_witness :
  generate_sequences source_flags
    ([sample_row "AVLN_EALS" "Avalanche - Expected Annual Loss Score" "Avalanche"]
     ++ sample_row "AVLN_EXPB" "Avalanche - Exposure - Building Value" "Avalanche"
     :: [sample_row "RISK_SCORE" "National Risk Index - Score"
           "National Risk Index"])%list
  = generate_sequences source_flags
      ([sample_row "AVLN_EALS" "Avalanche - Expected Annual Loss Score"
          "Avalanche"]
       ++ [sample_row "RISK_SCORE" "National Risk Index - Score"
             "National Risk Index"])%list.
Proof.
  apply (unretained_row_leaves_no_trace source_flags). reflexivity.
Defined.

Lemma existsb_if {A : Type} (f : A -> bool) (b : bool) (l : list A) :
  existsb f (if b then l else []) = b && existsb f l.
Proof. destruct b; reflexivity. Qed.

(** X10: setting more flags only skips more rows: a row skipped under
    some flags is skipped under all flags that include them, and a row
    retained under the larger set is retained under the smaller. *)
Theorem more_flags_skip_more (f g : Flags) (r : Row) :
  flags_le f g ->
  (should_skip_component f r = true -> should_skip_component g r = true)
  /\ (retained g r = true -> retained f r = true).
Proof.
  intros (H1 & H2 & H3 & H4).
  assert (Hskip : should_skip_component f r = true ->
                  should_skip_component g r = true).
  { unfold should_skip_component, field_alias_strings_to_skip.
    rewrite !existsb_app, !existsb_if, !orb_true_iff, !andb_true_iff.
    tauto. }
  split; [exact Hskip |].
  unfold retained. rewrite !andb_true_iff, !negb_true_iff.
  intros [Hi Hg]. split; [exact Hi |].
  destruct (should_skip_component f r); [| reflexivity].
  rewrite (Hskip eq_refl) in Hg. discriminate Hg.
Qed.

Lemma more_flags_skip_more_witness :
  retained
    {| FLAG_SKIP_EAL_COMPONENTS := false;
       FLAG_SKIP_IMPACTED_THING_COMPONENTS := false;
       FLAG_SKIP_NON_SCORE_RELATIVE_MEASURES := true;
       FLAG_SKIP_RAW_VALUES := false |}
    (sample_row "AVLN_EALS" "Avalanche - Expected Annual Loss Score" "Avalanche")
  = true.
Proof.
  apply (more_flags_skip_more
           {| FLAG_SKIP_EAL_COMPONENTS := false;
              FLAG_SKIP_IMPACTED_THING_COMPONENTS := false;
              FLAG_SKIP_NON_SCORE_RELATIVE_MEASURES := true;
              FLAG_SKIP_RAW_VALUES := false |}
           source_flags).
  - repeat split; cbn; congruence.
  - reflexivity.
Defined.

Lemma extract_all_rows (flags : Flags) (l : list Row) (ps : list Properties) :
  extract_all flags l = Ok ps ->
  map row ps
  = map Some (filter (fun r => negb (should_skip_component flags r)) l).
Proof.
  revert ps. induction l as [| r l IH]; intros ps H.
  - injection H as <-. reflexivity.
  - cbn [extract_all filter] in *.
    destruct (should_skip_component flags r); cbn [negb]; [exact (IH ps H) |].
    bind_inv H as p Hp. bind_inv H as rest Hrest. injection H as <-.
    cbn [map]. now rewrite (extract_row_keeps_row r p Hp), (IH rest Hrest).
Qed.

Lemma retained_filter (flags : Flags) (dd : list Row) :
  filter (fun r => negb (should_skip_component flags r)) (drop_ignored_fields dd)
  = filter (retained flags) dd.
Proof.
  unfold drop_ignored_fields, retained.
  induction dd as [| r dd IH]; [reflexivity |]. cbn [filter].
  destruct (mem (Field_Name r) IGNORED_FIELDS); cbn [negb andb filter];
    [exact IH |].
  destruct (should_skip_component flags r); cbn [negb]; now rewrite IH.
Qed.

Lemma format_all_shape (ps : list Properties) (i : nat)
  (s t c : list string) (rs : list Row) :
  format_all i ps = Ok (s, t, c) ->
  map row ps = map Some rs ->
  c = map Field_Name rs
  /\ List.length s = List.length rs /\ List.length t = List.length rs.
Proof.
  revert i s t c rs. induction ps as [| p ps IH]; intros i s t c rs H Hrows.
  - injection H as <- <- <-. destruct rs; [now repeat split | discriminate].
  - destruct rs as [| r rs]; [discriminate |]. injection Hrows as Hr Hrows.
    cbn [format_all] in H. bind_inv H as st Hst. destruct st as [schema tmcf].
    bind_inv H as r' Hr'. bind_inv H as rest Hrest.
    destruct rest as [[ss ts] cs]. injection H as <- <- <-.
    rewrite Hr in Hr'. injection Hr' as <-.
    destruct (IH _ _ _ _ rs Hrest Hrows) as (-> & Hs & Ht).
    cbn [map List.length]. now rewrite Hs, Ht.
Qed.

(** X11: on a table whose cells are strings, when the generation
    returns, the column list is the pruned list of the field names of
    the retained rows, in their order: a name is in it exactly when a
    retained row carries it, and neither the column list nor the schema
    sequence repeats an entry. *)
Theorem csv_columns_are_retained_names
  (flags : Flags) (dd : list Row) (o : Outputs) :
  generate_sequences flags dd = Ok o ->
  csv_columns o
  = prune_list_dupes String.eqb (map Field_Name (filter (retained flags) dd))
  /\ (forall name,
         In name (csv_columns o)
         <-> exists r, In r dd /\ retained flags r = true /\ Field_Name r = name)
  /\ NoDup (csv_columns o)
  /\ NoDup (schemas o).
Proof.
  intros H.
  destruct (generate_sequences_prunes flags dd o H)
    as (ps & s & t & c & Hps & Hf & Hs & _ & Hc).
  pose proof (extract_all_rows _ _ _ Hps) as Hrows.
  rewrite retained_filter in Hrows.
  destruct (format_all_shape ps 0 s t c _ Hf Hrows) as (-> & _ & _).
  repeat split.
  - exact Hc.
  - rewrite Hc. intros Hin.
    apply (prune_In String.eqb String.eqb_eq), in_map_iff in Hin.
    destruct Hin as (r & Hname & Hr). apply filter_In in Hr.
    exists r. tauto.
  - intros (r & Hin & Hret & Hname). rewrite Hc.
    apply (prune_In String.eqb String.eqb_eq), in_map_iff.
    exists r. split; [exact Hname | apply filter_In; tauto].
  - rewrite Hc. apply (prune_NoDup String.eqb String.eqb_eq).
  - rewrite Hs. apply (prune_NoDup String.eqb String.eqb_eq).
Qed.

Lemma csv_columns_are_retained_names_witness :
  csv_columns
    {| schemas :=
         [ COMPOSITE_MCF_FORMAT "FemaNaturalHazardRiskIndex_NaturalHazardImpact"
             "femaNaturalHazardRiskIndex"
             "FEMA National Risk Index for Natural Hazard Impact" ];
       tmcfs :=
         [ tmcf_from_row
             (sample_row "RISK_SCORE" "National Risk Index - Score"
                "National Risk Index")
             0 "FemaNaturalHazardRiskIndex_NaturalHazardImpact"
             "FemaNationalRiskScore" ];
       csv_columns := ["RISK_SCORE"] |}
  = prune_list_dupes String.eqb
      (map Field_Name
         (filter (retained source_flags)
            [ sample_row "OBJECTID" "Object ID" "";
              sample_row "RISK_SCORE" "National Risk Index - Score"
                "National Risk Index";
              sample_row "RISK_RATNG" "National Risk Index - Rating"
                "National Risk Index" ])).
Proof.
  apply (csv_columns_are_retained_names source_flags
           [ sample_row "OBJECTID" "Object ID" "";
             sample_row "RISK_SCORE" "National Risk Index - Score"
               "National Risk Index";
             sample_row "RISK_RATNG" "National Risk Index - Rating"
               "National Risk Index" ]).
  reflexivity.
Defined.

(** ** The template fragments are never pruned *)

From Stdlib Require Import DecimalNat.

Lemma append_inj_l (a x y : string) : a ++ x = a ++ y -> x = y.
Proof.
  induction a as [| c a IH]; cbn [append]; intros H; [exact H |].
  injection H as H. exact (IH H).
Qed.

(** A decimal numeral ends where the first newline stands. *)
Lemma numeral_before_newline (d d' : Decimal.uint) (a b : string) :
  NilEmpty.string_of_uint d ++ nl ++ a = NilEmpty.string_of_uint d' ++ nl ++ b ->
  NilEmpty.string_of_uint d = NilEmpty.string_of_uint d'.
Proof.
  revert d'. induction d as [| d IH | d IH | d IH | d IH | d IH | d IH
                            | d IH | d IH | d IH | d IH];
    intros d'; destruct d'; cbn; intros H;
    try discriminate H; try reflexivity;
    injection H as H; f_equal; exact (IH _ H).
Qed.

Lemma of_nat_injective (i j : nat) : of_nat i = of_nat j -> i = j.
Proof.
  unfold of_nat. intros H.
  apply (f_equal NilEmpty.uint_of_string) in H.
  rewrite !NilEmpty.usu in H. injection H as H.
  apply (f_equal Nat.of_uint) in H. now rewrite !Unsigned.of_to in H.
Qed.

Lemma tmcf_from_row_shape (r : Row) (i : nat) (dcid u : string) :
  exists rest,
    tmcf_from_row r i dcid u
    = nl ++ "Node: E:FEMA_NRI->E" ++ of_nat i ++ nl ++ rest.
Proof.
  unfold tmcf_from_row, TMCF_FORMAT. destruct u as [| c u].
  - eexists. reflexivity.
  - rewrite !append_assoc. eexists. reflexivity.
Qed.

(** The ordinal can be read back from a template fragment. *)
Lemma tmcf_from_row_ordinal (r r' : Row) (i j : nat) (d d' u u' : string) :
  tmcf_from_row r i d u = tmcf_from_row r' j d' u' -> i = j.
Proof.
  destruct (tmcf_from_row_shape r i d u) as (rest & ->).
  destruct (tmcf_from_row_shape r' j d' u') as (rest' & ->).
  intros H. apply append_inj_l, append_inj_l in H.
  apply of_nat_injective. exact (numeral_before_newline _ _ _ _ H).
Qed.

Lemma schema_and_tmcf_ordinal (p : Properties) (i : nat) (schema tmcf : string) :
  schema_and_tmcf_from_properties p i = Ok (schema, tmcf) ->
  exists r dcid u, tmcf = tmcf_from_row r i dcid u.
Proof.
  unfold schema_and_tmcf_from_properties. intros H.
  bind_inv H as composite Hc. bind_inv H as sd Hsd. destruct sd as [s dcid].
  bind_inv H as r Hr. injection H as _ <-. now exists r, dcid, (unit p).
Qed.

Lemma format_all_tmcfs_distinct (ps : list Properties) (i : nat)
  (s t c : list string) :
  format_all i ps = Ok (s, t, c) ->
  Forall (fun x => exists k r dcid u, i <= k /\ x = tmcf_from_row r k dcid u) t
  /\ NoDup t.
Proof.
  revert i s t c. induction ps as [| p ps IH]; intros i s t c H.
  - injection H as <- <- <-. split; constructor.
  - cbn [format_all] in H. bind_inv H as st Hst. destruct st as [schema tmcf].
    bind_inv H as r' Hr'. bind_inv H as rest Hrest.
    destruct rest as [[ss ts] cs]. injection H as <- <- <-.
    destruct (IH _ _ _ _ Hrest) as [Hall Hnd].
    destruct (schema_and_tmcf_ordinal p i schema tmcf Hst)
      as (r & dcid & u & ->).
    split.
    + constructor; [now exists i, r, dcid, u |].
      eapply Forall_impl; [| exact Hall].
      intros x (k & r0 & d0 & u0 & Hk & ->). exists k, r0, d0, u0.
      split; [lia | reflexivity].
    + constructor; [| exact Hnd]. intros Hin.
      rewrite Forall_forall in Hall.
      destruct (Hall _ Hin) as (k & r0 & d0 & u0 & Hk & Heq).
      apply tmcf_from_row_ordinal in Heq. lia.
Qed.

Lemma prune_length {A : Type} (eqb : A -> A -> bool)
  (eqb_eq : forall x y : A, eqb x y = true <-> x = y) (l : list A) :
  List.length (prune_list_dupes eqb l) <= List.length l.
Proof.
  apply NoDup_incl_length; [apply (prune_NoDup eqb eqb_eq) |].
  intros x. apply (prune_In eqb eqb_eq).
Qed.

(** X12: every retained row keeps its own template fragment: the ordinal
    in the fragment tells the fragments apart, so pruning removes none of
    them, while the schema sequence and the column list can only get
    shorter. *)
Theorem tmcfs_are_never_pruned (flags : Flags) (dd : list Row) (o : Outputs) :
  generate_sequences flags dd = Ok o ->
  List.length (tmcfs o) = List.length (filter (retained flags) dd)
  /\ List.length (schemas o) <= List.length (filter (retained flags) dd)
  /\ List.length (csv_columns o) <= List.length (filter (retained flags) dd).
Proof.
  intros H.
  destruct (generate_sequences_prunes flags dd o H)
    as (ps & s & t & c & Hps & Hf & Hs & Ht & Hc).
  pose proof (extract_all_rows _ _ _ Hps) as Hrows.
  rewrite retained_filter in Hrows.
  destruct (format_all_shape ps 0 s t c _ Hf Hrows) as (Hcols & Hls & Hlt).
  destruct (format_all_tmcfs_distinct ps 0 s t c Hf) as [_ Hnd].
  rewrite Hs, Ht, Hc, (prune_fixed String.eqb String.eqb_eq t Hnd).
  split; [exact Hlt | split].
  - rewrite <- Hls. apply (prune_length String.eqb String.eqb_eq).
  - rewrite <- (length_map Field_Name), <- Hcols.
    apply (prune_length String.eqb String.eqb_eq).
Qed.

Lemma tmcfs_are_never_pruned_witness :
  exists o,
    generate_sequences source_flags
      [ sample_row "AVLN_EALS" "Avalanche - Expected Annual Loss Score"
          "Avalanche";
        sample_row "AVLN_EALS" "Avalanche - Expected Annual Loss Score"
          "Avalanche" ]
    = Ok o
    /\ List.length (tmcfs o) = 2
    /\ List.length (schemas o) <= 2
    /\ List.length (csv_columns o) <= 2.
Proof.
  eexists. split; [reflexivity |].
  apply (tmcfs_are_never_pruned source_flags
           [ sample_row "AVLN_EALS" "Avalanche - Expected Annual Loss Score"
               "Avalanche";
             sample_row "AVLN_EALS" "Avalanche - Expected Annual Loss Score"
               "Avalanche" ]).
  reflexivity.
Defined.

(** ** Alias mapping, unit normalisation and capitalisation *)

Lemma alias_value_fixed (key v : string) :
  lookup key DATACOMMONS_ALIASES = Some v ->
  apply_datacommon_alias v = v /\ In v (map snd DATACOMMONS_ALIASES).
Proof.
  cbn [lookup DATACOMMONS_ALIASES].
  repeat (destruct (String.eqb key _);
          [intros [= <-]; split; [reflexivity | cbn; tauto] |]).
  discriminate.
Qed.

(** X13: alias mapping is idempotent: it gives one of the canonical
    tokens of the table, on which it does nothing, or returns its
    argument as it is. *)
Theorem apply_datacommon_alias_idempotent (s : string) :
  apply_datacommon_alias (apply_datacommon_alias s) = apply_datacommon_alias s
  /\ (apply_datacommon_alias s = s
      \/ In (apply_datacommon_alias s) (map snd DATACOMMONS_ALIASES)).
Proof.
  assert (H : (exists key v,
                  lookup key DATACOMMONS_ALIASES = Some v
                  /\ apply_datacommon_alias s = v)
              \/ apply_datacommon_alias s = s).
  { unfold apply_datacommon_alias.
    destruct (lookup (delete_all " " (strip s)) DATACOMMONS_ALIASES)
      as [v |] eqn:E; [left | now right].
    now exists (delete_all " " (strip s)), v. }
  destruct H as [(key & v & Hv & ->) | Hs].
  - destruct (alias_value_fixed key v Hv) as [Hfix Hin].
    split; [exact Hfix | now right].
  - rewrite Hs. split; [exact Hs | now left].
Qed.

(** X14: unit normalisation is idempotent, leaves the property alone, and
    gives the risk-score token exactly when it was given that token. *)
Theorem normalize_unit_idempotent (mp u : string) :
  let '(mp', u') := normalize_unit_for_measured_property mp u in
  mp' = mp
  /\ normalize_unit_for_measured_property mp' u' = (mp', u')
  /\ (u' = "FemaNationalRiskScore" <-> u = "FemaNationalRiskScore").
Proof.
  unfold normalize_unit_for_measured_property.
  destruct (String.eqb u "FemaNationalRiskScore") eqn:Hu; cbn [negb].
  - rewrite Hu. cbn [negb]. apply String.eqb_eq in Hu. tauto.
  - apply String.eqb_neq in Hu.
    destruct (String.eqb mp "expectedLoss") eqn:Hmp; cbn [negb String.eqb];
      rewrite ?Hmp; repeat split; try reflexivity; try discriminate;
      intros H; congruence.
Qed.

Lemma upper_char_idempotent (c : ascii) :
  upper_char (upper_char c) = upper_char c.
Proof. destruct c as [[] [] [] [] [] [] [] []]; reflexivity. Qed.

(** X15: [capitalize_first] raises [IndexError] on the empty string only;
    on a string that starts with an ASCII character its result has the
    length of its argument and is left unchanged by a second
    capitalisation. *)
Theorem capitalize_first_idempotent (s : string) :
  (s = "" -> capitalize_first s = Raise IndexError)
  /\ (forall c rest,
         s = String c rest -> isascii c = true ->
         exists t,
           capitalize_first s = Ok t
           /\ String.length t = String.length s
           /\ capitalize_first t = Ok t).
Proof.
  split.
  - intros ->. reflexivity.
  - intros c rest -> _. exists (String (upper_char c) rest). cbn.
    rewrite upper_char_idempotent. repeat split.
Qed.

Lemma capitalize_first_idempotent_witness :
  exists t,
    capitalize_first "expectedLoss" = Ok t
    /\ String.length t = String.length "expectedLoss"
    /\ capitalize_first t = Ok t.
Proof.
  apply (proj2 (capitalize_first_idempotent "expectedLoss")
           "e"%char "xpectedLoss");
    reflexivity.
Defined.

(** ** Spacing capital letters *)

Lemma delete_whitespace_space_capitals (t : string) :
  delete_whitespace (space_capitals t) = delete_whitespace t.
Proof.
  induction t as [| c t IH]; [reflexivity |]. cbn [space_capitals].
  destruct (isupper c);
    [change (delete_whitespace (String " " (String c (space_capitals t))))
       with (delete_whitespace (String c (space_capitals t))) |];
    cbn [delete_whitespace]; rewrite IH; reflexivity.
Qed.

Lemma delete_whitespace_idempotent (s : string) :
  delete_whitespace (delete_whitespace s) = delete_whitespace s.
Proof.
  apply delete_whitespace_no_blank, no_blank_delete_whitespace.
Qed.

Lemma delete_whitespace_space_internal_capitals (t : string) :
  delete_whitespace (space_internal_capitals t) = delete_whitespace t.
Proof.
  destruct t as [| c t]; [reflexivity |].
  cbn [space_internal_capitals delete_whitespace].
  now rewrite delete_whitespace_space_capitals.
Qed.

(** X16: [add_spaces_before_capital_letters] is idempotent; taking the
    blank characters out of its result gives the text without its blank
    characters, so the inserted spaces are all it adds; and its result
    has no blank character at either end. *)
Theorem add_spaces_before_capital_letters_idempotent (text : string) :
  add_spaces_before_capital_letters (add_spaces_before_capital_letters text)
  = add_spaces_before_capital_letters text
  /\ delete_whitespace (add_spaces_before_capital_letters text)
     = delete_whitespace text
  /\ strip (add_spaces_before_capital_letters text)
     = add_spaces_before_capital_letters text.
Proof.
  assert (Hdel : delete_whitespace (add_spaces_before_capital_letters text)
                 = delete_whitespace text).
  { rewrite add_spaces_before_capital_letters_spec,
      delete_whitespace_space_internal_capitals.
    apply delete_whitespace_idempotent. }
  split; [| split; [exact Hdel |]].
  - rewrite (add_spaces_before_capital_letters_spec
               (add_spaces_before_capital_letters text)), Hdel.
    symmetry. apply add_spaces_before_capital_letters_spec.
  - rewrite add_spaces_before_capital_letters_spec.
    pose proof (no_blank_delete_whitespace text) as Hnb.
    destruct (delete_whitespace text) as [| c t]; [reflexivity |].
    cbn [no_blank] in Hnb. apply andb_true_iff in Hnb.
    destruct Hnb as [Hc Ht]. apply negb_true_iff in Hc.
    unfold strip. cbn [space_internal_capitals lstrip]. rewrite Hc.
    apply rstrip_cons_fixed; [exact (rstrip_space_capitals t Ht) | now right].
Qed.

(** ** More on pruning *)

Lemma fold_prune_known {A : Type} (eqb : A -> A -> bool)
  (eqb_eq : forall x y : A, eqb x y = true <-> x = y) (l k : list A) :
  (forall x, In x l -> In x k) -> fold_left (prune_step eqb) l k = k.
Proof.
  induction l as [| x l IH]; intros H; [reflexivity |].
  cbn [fold_left]. unfold prune_step at 2.
  assert (Hx : existsb (eqb x) k = true).
  { apply (existsb_eqb_In eqb eqb_eq). apply H. now left. }
  rewrite Hx. apply IH. intros y Hy. apply H. now right.
Qed.

(** X17: a list is left as it is by pruning exactly when it has no
    repetition; and rows read again add nothing: elements appended to a
    list that already holds them disappear. *)
Theorem prune_list_dupes_fixed_iff_nodup
  {A : Type} (eqb : A -> A -> bool)
  (eqb_eq : forall x y : A, eqb x y = true <-> x = y) (l l' : list A) :
  (prune_list_dupes eqb l = l <-> NoDup l)
  /\ ((forall x, In x l' -> In x l) ->
      prune_list_dupes eqb (l ++ l')%list = prune_list_dupes eqb l).
Proof.
  split; [split |].
  - intros <-. apply (prune_NoDup eqb eqb_eq).
  - apply (prune_fixed eqb eqb_eq).
  - intros H. unfold prune_list_dupes. rewrite fold_left_app.
    apply (fold_prune_known eqb eqb_eq).
    intros x Hx. apply (prune_In eqb eqb_eq), H, Hx.
Qed.

Lemma prune_list_dupes_fixed_iff_nodup_witness :
  prune_list_dupes String.eqb
    (["AVLN_EALS"; "AVLN_RISKS"] ++ ["AVLN_RISKS"; "AVLN_EALS"])%list
  = prune_list_dupes String.eqb ["AVLN_EALS"; "AVLN_RISKS"].
Proof.
  apply (prune_list_dupes_fixed_iff_nodup String.eqb String.eqb_eq).
  intros x Hx. cbn in *. tauto.
Defined.

(** ** The skip filter matches substrings *)

Lemma prefix_iff_append (sub s : string) :
  prefix sub s = true <-> exists b, s = sub ++ b.
Proof.
  revert s. induction sub as [| c sub IH]; intros s.
  - split; [intros _; now exists s | intros _; destruct s; reflexivity].
  - destruct s as [| d s].
    + split; [discriminate | intros (b & H); discriminate H].
    + change (prefix (String c sub) (String d s))
        with (if ascii_dec c d then prefix sub s else false).
      destruct (ascii_dec c d) as [<- | Hne].
      * rewrite IH. split; intros (b & H); exists b.
        -- now rewrite H.
        -- now injection H.
      * split; [discriminate | intros (b & H)]. injection H as H _. congruence.
Qed.

Lemma contains_iff_append (sub s : string) :
  contains sub s = true <-> exists a b, s = a ++ sub ++ b.
Proof.
  induction s as [| c s IH].
  - cbn [contains]. rewrite orb_false_r, prefix_iff_append. split.
    + intros (b & H). now exists "", b.
    + intros (a & b & H). destruct a; [now exists b | discriminate H].
  - cbn [contains]. rewrite orb_true_iff, prefix_iff_append, IH. split.
    + intros [(b & H) | (a & b & H)].
      * now exists "", b.
      * exists (String c a), b. now rewrite H.
    + intros (a & b & H). destruct a as [| d a].
      * left. now exists b.
      * right. injection H as _ H. now exists a, b.
Qed.

(** X18: a row is skipped exactly when its alias contains one of the
    configured phrases as a substring, anywhere and also inside a word:
    the filter does not look at segments or words. *)
Theorem skip_filter_matches_substrings (flags : Flags) (r : Row) :
  should_skip_component flags r = true
  <-> exists phrase before after,
        In phrase (field_alias_strings_to_skip flags)
        /\ Field_Alias r = before ++ phrase ++ after.
Proof.
  unfold should_skip_component. rewrite existsb_exists. split.
  - intros (phrase & Hin & Hc). apply contains_iff_append in Hc.
    destruct Hc as (a & b & H). now exists phrase, a, b.
  - intros (phrase & a & b & Hin & H). exists phrase. split; [exact Hin |].
    apply contains_iff_append. now exists a, b.
Qed.

(** ** The earlier script *)

Lemma legacy_first_segment (r : Legacy.Row) :
  exists seg0, Legacy.get_nth_dash_from_field_alias r 0 = Ok seg0.
Proof.
  apply index_in_range. unfold split.
  destruct (split_go " - " 0 "" (Legacy.Field_Alias r)) eqn:E; [| cbn; lia].
  exfalso. exact (split_go_not_nil _ _ _ _ E).
Qed.

Lemma legacy_unit_split (seg1 : string) :
  exists mu,
    (if contains "Score" (Legacy.apply_datacommon_alias seg1)
        || contains "Rating" (Legacy.apply_datacommon_alias seg1)
     then
       unit <- last_item (split " " (Legacy.apply_datacommon_alias seg1)) ;;
       Ok (Legacy.apply_datacommon_alias
             (drop_tail (Legacy.apply_datacommon_alias seg1)
                (String.length unit)),
           Legacy.apply_datacommon_alias unit)
     else Ok (Legacy.apply_datacommon_alias seg1, "")) = Ok mu.
Proof.
  destruct (contains "Score" (Legacy.apply_datacommon_alias seg1)
            || contains "Rating" (Legacy.apply_datacommon_alias seg1)).
  - destruct (last_item_of_split " " (Legacy.apply_datacommon_alias seg1))
      as (word & ->).
    eexists. reflexivity.
  - eexists. reflexivity.
Qed.

Lemma legacy_composite_returns (r : Legacy.Row) :
  2 <= List.length (split " - " (Legacy.Field_Alias r)) ->
  exists p, Legacy.extract_properties_from_composite_row r = Ok p.
Proof.
  intros Hn. destruct (legacy_first_segment r) as (seg0 & H0).
  destruct (index_in_range (split " - " (Legacy.Field_Alias r)) 1)
    as (seg1 & H1); [lia |].
  fold (Legacy.get_nth_dash_from_field_alias r 1) in H1.
  unfold Legacy.extract_properties_from_composite_row. rewrite H0, H1.
  cbn [bind].
  destruct (Legacy.normalize_unit_for_measured_property _ _).
  eexists. reflexivity.
Qed.

Lemma legacy_ind_hazard_returns (r : Legacy.Row) :
  2 <= List.length (split " - " (Legacy.Field_Alias r)) ->
  (1 < count_char "-" (Legacy.Field_Alias r) ->
   3 <= List.length (split " - " (Legacy.Field_Alias r))) ->
  exists p h q it,
    Legacy.extract_properties_from_ind_hazard_row r = Ok p
    /\ Legacy.hazard_type p = Some h
    /\ Legacy.measurement_qualifier p = Some q
    /\ Legacy.impacted_thing p = Some it.
Proof.
  intros Hn Hthird. destruct (legacy_first_segment r) as (seg0 & H0).
  destruct (index_in_range (split " - " (Legacy.Field_Alias r)) 1)
    as (seg1 & H1); [lia |].
  fold (Legacy.get_nth_dash_from_field_alias r 1) in H1.
  unfold Legacy.extract_properties_from_ind_hazard_row. rewrite H0, H1.
  cbn [bind]. destruct (legacy_unit_split seg1) as ([mp u] & ->). cbn [bind].
  destruct (Legacy.normalize_unit_for_measured_property mp u).
  destruct (1 <? count_char "-" (Legacy.Field_Alias r))%nat eqn:Hd.
  - apply Nat.ltb_lt in Hd.
    destruct (index_in_range (split " - " (Legacy.Field_Alias r)) 2)
      as (seg2 & H2); [lia |].
    fold (Legacy.get_nth_dash_from_field_alias r 2) in H2. rewrite H2.
    cbn [bind]. do 4 eexists. repeat split.
  - cbn [bind]. do 4 eexists. repeat split.
Qed.

Lemma legacy_ind_hazard_raises (r : Legacy.Row) :
  List.length (split " - " (Legacy.Field_Alias r)) < 2
  \/ (List.length (split " - " (Legacy.Field_Alias r)) < 3
      /\ 1 < count_char "-" (Legacy.Field_Alias r)) ->
  Legacy.extract_properties_from_ind_hazard_row r = Raise IndexError.
Proof.
  intros Hn. destruct (legacy_first_segment r) as (seg0 & H0).
  unfold Legacy.extract_properties_from_ind_hazard_row.
  rewrite H0. cbn [bind].
  destruct (Nat.lt_ge_cases (List.length (split " - " (Legacy.Field_Alias r))) 2)
    as [Hlt | Hge].
  - unfold Legacy.get_nth_dash_from_field_alias at 1.
    rewrite index_out_of_range by lia. reflexivity.
  - destruct Hn as [Hn | [Hn Hd]]; [lia |].
    destruct (index_in_range (split " - " (Legacy.Field_Alias r)) 1)
      as (seg1 & H1); [lia |].
    fold (Legacy.get_nth_dash_from_field_alias r 1) in H1. rewrite H1.
    cbn [bind]. destruct (legacy_unit_split seg1) as ([mp u] & ->). cbn [bind].
    destruct (Legacy.normalize_unit_for_measured_property mp u).
    apply Nat.ltb_lt in Hd. rewrite Hd.
    unfold Legacy.get_nth_dash_from_field_alias.
    rewrite index_out_of_range by lia. reflexivity.
Qed.

(** X19: in the earlier script a row gives its two fragments exactly when
    its alias has the segments the extractor reads (two; three for a
    non-composite alias with more than one dash character), and raises
    [IndexError] otherwise: formatting adds no failure, also not for an
    empty measured property. *)
Theorem legacy_row_returns_iff_segments (r : Legacy.Row) (index : nat) :
  let n := List.length (split " - " (Legacy.Field_Alias r)) in
  let dashes := count_char "-" (Legacy.Field_Alias r) in
  (Legacy.is_composite_row r = true ->
   (2 <= n -> exists st, Legacy.schema_and_tmcf_from_row r index = Ok st)
   /\ (n < 2 -> Legacy.schema_and_tmcf_from_row r index = Raise IndexError))
  /\ (Legacy.is_composite_row r = false ->
      (2 <= n -> (1 < dashes -> 3 <= n) ->
       exists st, Legacy.schema_and_tmcf_from_row r index = Ok st)
      /\ (n < 2 \/ (n < 3 /\ 1 < dashes) ->
          Legacy.schema_and_tmcf_from_row r index = Raise IndexError)).
Proof.
  intros n dashes. unfold Legacy.schema_and_tmcf_from_row.
  split; intros ->; split.
  - intros Hn. destruct (legacy_composite_returns r Hn) as (p & ->).
    cbn [bind].
    destruct (Legacy.format_composite_field_properties_to_schema p).
    cbn [bind]. eexists. reflexivity.
  - intros Hn. destruct (legacy_first_segment r) as (seg0 & H0).
    unfold Legacy.extract_properties_from_composite_row.
    rewrite H0. cbn [bind]. unfold Legacy.get_nth_dash_from_field_alias.
    rewrite index_out_of_range by (fold n; lia). reflexivity.
  - intros Hn Hthird.
    destruct (legacy_ind_hazard_returns r Hn Hthird)
      as (p & h & q & it & -> & Hh & Hq & Hit).
    cbn [bind]. unfold Legacy.format_ind_hazard_field_properties_to_schema.
    rewrite Hh, Hq, Hit. cbn [get bind]. eexists. reflexivity.
  - intros Hn. rewrite (legacy_ind_hazard_raises r Hn). reflexivity.
Qed.

Lemma legacy_row_returns_iff_segments_witness :
  exists st,
    Legacy.schema_and_tmcf_from_row
      {| Legacy.Field_Name := "SOVI_SCORE";
         Legacy.Field_Alias := "  - Score";
         Legacy.Relevant_Layer := "Social Vulnerability";
         Legacy.Version := "November 2021" |}
      0
    = Ok st.
Proof.
  apply (proj1 (proj1 (legacy_row_returns_iff_segments
                         {| Legacy.Field_Name := "SOVI_SCORE";
                            Legacy.Field_Alias := "  - Score";
                            Legacy.Relevant_Layer := "Social Vulnerability";
                            Legacy.Version := "November 2021" |}
                         0)
                  eq_refl)).
  vm_compute. lia.
Defined.

Lemma legacy_run_pieces (flags : Legacy.Flags) (dd : list Legacy.Row)
  (i : nat) (s t s' t' : string) :
  Legacy.run flags i dd s t = Ok (s', t') ->
  exists pieces : list (string * string),
    Forall2 (fun kr st =>
               Legacy.schema_and_tmcf_from_row (snd kr) (fst kr) = Ok st)
      (Legacy.numbered flags i dd) pieces
    /\ s' = s ++ join "" (map (fun st => fst st ++ nl) pieces)
    /\ t' = t ++ join "" (map snd pieces).
Proof.
  revert i s t. induction dd as [| r dd IH]; intros i s t H.
  - injection H as <- <-. exists []. cbn.
    rewrite !append_nil_r. repeat split. constructor.
  - cbn [Legacy.run Legacy.numbered] in *.
    destruct (Legacy.should_skip_component flags r); [exact (IH _ _ _ H) |].
    bind_inv H as st Hst. destruct st as [mcf tmcf].
    destruct (IH _ _ _ H) as (pieces & Hall & -> & ->).
    exists ((mcf, tmcf) :: pieces). split; [| split].
    + constructor; [exact Hst | exact Hall].
    + cbn [map fst]. rewrite join_empty_cons, !append_assoc. reflexivity.
    + cbn [map snd]. rewrite join_empty_cons, !append_assoc. reflexivity.
Qed.

Lemma legacy_numbered_positions (flags : Legacy.Flags) (l : list Legacy.Row)
  (i k : nat) (r : Legacy.Row) :
  In (k, r) (Legacy.numbered flags i l)
  <-> i <= k /\ nth_error l (k - i) = Some r
      /\ Legacy.should_skip_component flags r = false.
Proof.
  revert i. induction l as [| r0 l IH]; intros i.
  - cbn. split; [tauto | intros (_ & H & _)].
    destruct (k - i); discriminate H.
  - cbn [Legacy.numbered].
    assert (Hstep : In (k, r) (Legacy.numbered flags (S i) l)
                    <-> i < k /\ nth_error (r0 :: l) (k - i) = Some r
                        /\ Legacy.should_skip_component flags r = false).
    { rewrite IH. split.
      - intros (Hk & Hn & Hs). replace (k - i) with (S (k - S i)) by lia.
        repeat split; [lia | exact Hn | exact Hs].
      - intros (Hk & Hn & Hs). replace (k - i) with (S (k - S i)) in Hn by lia.
        repeat split; [lia | exact Hn | exact Hs]. }
    destruct (Legacy.should_skip_component flags r0) eqn:Hskip.
    + rewrite Hstep. split.
      * intros (Hk & Hn & Hs). repeat split; [lia | exact Hn | exact Hs].
      * intros (Hk & Hn & Hs). destruct (Nat.eq_dec k i) as [-> | Hne].
        -- rewrite Nat.sub_diag in Hn. injection Hn as <-. congruence.
        -- repeat split; [lia | exact Hn | exact Hs].
    + cbn [In]. rewrite Hstep. split.
      * intros [[= <- <-] | (Hk & Hn & Hs)].
        -- rewrite Nat.sub_diag. repeat split; [lia | exact Hskip].
        -- repeat split; [lia | exact Hn | exact Hs].
      * intros (Hk & Hn & Hs). destruct (Nat.eq_dec k i) as [-> | Hne].
        -- rewrite Nat.sub_diag in Hn. injection Hn as <-. now left.
        -- right. repeat split; [lia | exact Hn | exact Hs].
Qed.

(** X20: the earlier script writes one schema block, followed by a
    newline, and one template block for every row that is neither
    ignored nor skipped, in order and without pruning; the ordinal of a
    block is the position of its row in the table left after the ignored
    fields are dropped, so skipped rows use up ordinals. *)
Theorem legacy_generate_blocks
  (IGNORED : list string) (flags : Legacy.Flags) (dd : list Legacy.Row)
  (schema_out tmcf_out : string) :
  Legacy.generate IGNORED flags dd = Ok (schema_out, tmcf_out) ->
  let table :=
    filter (fun r => negb (mem (Legacy.Field_Name r) IGNORED)) dd in
  exists pieces : list (string * string),
    Forall2 (fun kr st =>
               Legacy.schema_and_tmcf_from_row (snd kr) (fst kr) = Ok st)
      (Legacy.numbered flags 0 table) pieces
    /\ schema_out = join "" (map (fun st => fst st ++ nl) pieces)
    /\ tmcf_out = join "" (map snd pieces)
    /\ (forall k r,
           In (k, r) (Legacy.numbered flags 0 table)
           <-> nth_error table k = Some r
               /\ Legacy.should_skip_component flags r = false).
Proof.
  intros H table. unfold Legacy.generate in H. fold table in H.
  destruct (legacy_run_pieces _ _ _ _ _ _ _ H) as (pieces & Hall & Hs & Ht).
  exists pieces. split; [exact Hall | split; [exact Hs | split; [exact Ht |]]].
  intros k r. rewrite legacy_numbered_positions, Nat.sub_0_r.
  split; [tauto | intros [Hn Hs']].
  repeat split; [lia | exact Hn | exact Hs'].
Qed.

Lemma legacy_generate_blocks_witness :
  exists schema_out tmcf_out,
    Legacy.generate ["OBJECTID"] Legacy.source_flags
      [ {| Legacy.Field_Name := "OBJECTID";
           Legacy.Field_Alias := "Object ID";
           Legacy.Relevant_Layer := "";
           Legacy.Version := "November 2021" |};
        {| Legacy.Field_Name := "RISK_RATNG";
           Legacy.Field_Alias := "National Risk Index - Rating";
           Legacy.Relevant_Layer := "National Risk Index";
           Legacy.Version := "November 2021" |};
        {| Legacy.Field_Name := "RISK_SCORE";
           Legacy.Field_Alias := "National Risk Index - Score";
           Legacy.Relevant_Layer := "National Risk Index";
           Legacy.Version := "November 2021" |} ]
    = Ok (schema_out, tmcf_out)
    /\ exists pieces : list (string * string),
        Forall2 (fun kr st =>
                   Legacy.schema_and_tmcf_from_row (snd kr) (fst kr) = Ok st)
          [ (1, {| Legacy.Field_Name := "RISK_SCORE";
                   Legacy.Field_Alias := "National Risk Index - Score";
                   Legacy.Relevant_Layer := "National Risk Index";
                   Legacy.Version := "November 2021" |}) ]
          pieces
        /\ schema_out = join "" (map (fun st => fst st ++ nl) pieces)
        /\ tmcf_out = join "" (map snd pieces).
Proof.
  do 2 eexists. split; [vm_compute; reflexivity |].
  eassert (H : Legacy.generate ["OBJECTID"] Legacy.source_flags
                 [ {| Legacy.Field_Name := "OBJECTID";
                      Legacy.Field_Alias := "Object ID";
                      Legacy.Relevant_Layer := "";
                      Legacy.Version := "November 2021" |};
                   {| Legacy.Field_Name := "RISK_RATNG";
                      Legacy.Field_Alias := "National Risk Index - Rating";
                      Legacy.Relevant_Layer := "National Risk Index";
                      Legacy.Version := "November 2021" |};
                   {| Legacy.Field_Name := "RISK_SCORE";
                      Legacy.Field_Alias := "National Risk Index - Score";
                      Legacy.Relevant_Layer := "National Risk Index";
                      Legacy.Version := "November 2021" |} ]
               = Ok (_, _)) by (vm_compute; reflexivity).
  destruct (legacy_generate_blocks _ _ _ _ _ H)
    as (pieces & Hall & Hs & Ht & _).
  exists pieces. split; [exact Hall | split; [exact Hs | exact Ht]].
Defined.

(** X21: the two versions normalise units alike, up to the names of the
    tokens: given properties that are the annualized-loss token in both
    or in neither, the units they return are both the risk-score token,
    or the currency token of each version, or both empty. *)
Theorem normalize_unit_versions_agree (mp mp' u : string) :
  (mp = "ExpectedLoss" <-> mp' = "expectedLoss") ->
  let old := snd (Legacy.normalize_unit_for_measured_property mp u) in
  let new := snd (normalize_unit_for_measured_property mp' u) in
  (old = "FemaNationalRiskScore" <-> new = "FemaNationalRiskScore")
  /\ (old = "USDollar" <-> new = "dcid:USDollar")
  /\ (old = "" <-> new = "").
Proof.
  intros Hboth.
  unfold Legacy.normalize_unit_for_measured_property,
    normalize_unit_for_measured_property.
  assert (Hb : String.eqb mp "ExpectedLoss" = String.eqb mp' "expectedLoss").
  { destruct (String.eqb mp "ExpectedLoss") eqn:E1,
      (String.eqb mp' "expectedLoss") eqn:E2; try reflexivity.
    - apply String.eqb_eq, Hboth, String.eqb_eq in E1. congruence.
    - apply String.eqb_eq, Hboth, String.eqb_eq in E2. congruence. }
  rewrite Hb.
  destruct (String.eqb u "FemaNationalRiskScore") eqn:Hu; cbn [negb].
  - apply String.eqb_eq in Hu. subst u.
    destruct (String.eqb mp' "expectedLoss"); cbn [snd];
      repeat split; intros H; first [reflexivity | discriminate H].
  - destruct (String.eqb mp' "expectedLoss"); cbn [snd];
      repeat split; intros H; first [reflexivity | discriminate H].
Qed.

Lemma normalize_unit_versions_agree_witness :
  (snd (Legacy.normalize_unit_for_measured_property "ExpectedLoss" "Rating")
   = "USDollar"
   <-> snd (normalize_unit_for_measured_property "expectedLoss" "Rating")
       = "dcid:USDollar").
Proof.
  apply (normalize_unit_versions_agree "ExpectedLoss" "expectedLoss" "Rating").
  split; reflexivity.
Defined.

(** ** A label that ends with a space *)

Lemma last_item_snoc {A : Type} (l : list A) (x : A) :
  last_item (l ++ [x])%list = Ok x.
Proof. unfold last_item. now rewrite rev_unit. Qed.

(** X22: when the aliased second segment of an individual-hazard row
    contains ["Score"] or ["Rating"] and ends with a space, its last
    word is empty, the slice [[:-0]] is empty too, and the row is
    extracted with an empty measured property, an empty unit and no
    qualifier, whatever the label says. *)
Theorem trailing_space_empties_the_property
  (r : Row) (p : Properties) (seg1 before : string) :
  extract_properties_from_ind_hazard_row r = Ok p ->
  get_nth_dash_from_field_alias r 1 = Ok seg1 ->
  apply_datacommon_alias seg1 = before ++ " " ->
  contains "Score" (apply_datacommon_alias seg1)
  || contains "Rating" (apply_datacommon_alias seg1) = true ->
  measured_property p = ""
  /\ unit p = ""
  /\ measurement_qualifier p = Some "".
Proof.
  intros H Hseg Hend Hscore.
  unfold extract_properties_from_ind_hazard_row in H.
  bind_inv H as seg0 H0. bind_inv H as s1 H1.
  rewrite Hseg in H1. injection H1 as <-.
  bind_inv H as mu Hmu. rewrite Hscore, Hend in Hmu.
  unfold split in Hmu. rewrite split_go_char_app in Hmu.
  change (split_go " " 0 "" "") with [""] in Hmu.
  rewrite last_item_snoc in Hmu.
  cbn [bind String.length drop_tail] in Hmu. injection Hmu as <-.
  change (apply_datacommon_alias "") with "" in H.
  change (normalize_unit_for_measured_property "" "") with ("", "") in H.
  cbn [String.eqb drop_spaces delete_all] in H.
  bind_inv H as it Hit. injection H as <-. repeat split.
Qed.

Lemma trailing_space_empties_the_property_witness :
  measured_property
    {| hazard_type := Some "AvalancheEvent";
       measured_property := "";
       measurement_qualifier := Some "";
       impacted_thing := Some "";
       unit := "";
       is_composite := None;
       row := None |}
  = ""
  /\ unit
       {| hazard_type := Some "AvalancheEvent";
          measured_property := "";
          measurement_qualifier := Some "";
          impacted_thing := Some "";
          unit := "";
          is_composite := None;
          row := None |}
     = ""
  /\ measurement_qualifier
       {| hazard_type := Some "AvalancheEvent";
          measured_property := "";
          measurement_qualifier := Some "";
          impacted_thing := Some "";
          unit := "";
          is_composite := None;
          row := None |}
     = Some "".
Proof.
  apply (trailing_space_empties_the_property
           (sample_row "AVLN_RISKS" "Avalanche - Risk Score " "Avalanche")
           {| hazard_type := Some "AvalancheEvent";
              measured_property := "";
              measurement_qualifier := Some "";
              impacted_thing := Some "";
              unit := "";
              is_composite := None;
              row := None |}
           "Risk Score " "Risk Score");
    reflexivity.
Defined.
